(** * A shallow embedding of the SQL quality gate

    Models [src/services/sql_validator.py] ([SQLValidator]) and
    [src/services/query_feedback_service.py] ([QueryFeedbackService]).

    Strings are Rocq [string]s (lists of ASCII characters); Python's
    [str.upper], [str.lower] and [str.strip] are modelled on that alphabet.
    The regular expressions of the source are written as terms of a small
    regex language and [re.search] is decided by Brzozowski derivatives. *)

From Stdlib Require Import String Ascii ZArith QArith List Bool Lia Sorted Permutation.
Import ListNotations.
Open Scope string_scope.

(** ** Python string methods *)
Module Py.

Definition is_space (c : ascii) : bool :=
  let n := nat_of_ascii c in
  (n =? 32)%nat || (n =? 9)%nat || (n =? 10)%nat || (n =? 11)%nat
  || (n =? 12)%nat || (n =? 13)%nat.

Definition is_lower (c : ascii) : bool :=
  (97 <=? nat_of_ascii c)%nat && (nat_of_ascii c <=? 122)%nat.

Definition is_upper (c : ascii) : bool :=
  (65 <=? nat_of_ascii c)%nat && (nat_of_ascii c <=? 90)%nat.

Definition is_digit (c : ascii) : bool :=
  (48 <=? nat_of_ascii c)%nat && (nat_of_ascii c <=? 57)%nat.

(** [\w]: letters, digits and the underscore. *)
Definition is_word (c : ascii) : bool :=
  is_lower c || is_upper c || is_digit c || Ascii.eqb c "_"%char.

Definition char_upper (c : ascii) : ascii :=
  if is_lower c then ascii_of_nat (nat_of_ascii c - 32) else c.

Definition char_lower (c : ascii) : ascii :=
  if is_upper c then ascii_of_nat (nat_of_ascii c + 32) else c.

Fixpoint map_chars (f : ascii -> ascii) (s : string) : string :=
  match s with
  | EmptyString => EmptyString
  | String c s' => String (f c) (map_chars f s')
  end.

(** [s.upper()] and [s.lower()] *)
Definition upper (s : string) : string := map_chars char_upper s.
Definition lower (s : string) : string := map_chars char_lower s.

Fixpoint lstrip (s : string) : string :=
  match s with
  | String c s' => if is_space c then lstrip s' else s
  | EmptyString => EmptyString
  end.

Fixpoint rev_string (s : string) : string :=
  match s with
  | EmptyString => EmptyString
  | String c s' => rev_string s' ++ String c EmptyString
  end.

Definition rstrip (s : string) : string := rev_string (lstrip (rev_string s)).

(** [s.strip()] *)
Definition strip (s : string) : string := rstrip (lstrip s).

(** [s.startswith(p)] *)
Definition startswith (s p : string) : bool := String.prefix p s.

(** [s.endswith(p)] *)
Definition endswith (s p : string) : bool :=
  String.prefix (rev_string p) (rev_string s).

(** [sub in s] *)
Fixpoint contains (s sub : string) : bool :=
  String.prefix sub s
  || match s with
     | EmptyString => false
     | String _ s' => contains s' sub
     end.

(** [s.count(c)] for a one-character argument *)
Fixpoint count_char (c : ascii) (s : string) : nat :=
  match s with
  | EmptyString => 0
  | String d s' => (if Ascii.eqb c d then 1 else 0) + count_char c s'
  end.

(** [s.count(sub)]: non-overlapping occurrences, scanning left to right. *)
Fixpoint count_sub_fuel (fuel : nat) (sub s : string) : nat :=
  match fuel with
  | O => 0
  | S fuel' =>
      match s with
      | EmptyString => 0
      | String _ s' =>
          if String.prefix sub s
          then S (count_sub_fuel fuel' sub (substring (String.length sub) (String.length s) s))
          else count_sub_fuel fuel' sub s'
      end
  end.

Definition count_sub (sub s : string) : nat :=
  match sub with
  | EmptyString => S (String.length s)
  | _ => count_sub_fuel (String.length s) sub s
  end.

(** [s.replace(old, new, 1)] *)
Fixpoint replace_first (old new s : string) : string :=
  if String.prefix old s
  then new ++ substring (String.length old) (String.length s) s
  else match s with
       | EmptyString => EmptyString
       | String c s' => String c (replace_first old new s')
       end.

(** The truthiness of a string: [not s] is [s == ""]. *)
Definition truthy (s : string) : bool :=
  match s with EmptyString => false | _ => true end.

End Py.

(** ** Regular expressions and [re.search] *)
Module Re.

Inductive regex : Type :=
| RNull
| REps
| RChar (p : ascii -> bool)
| RCat (r1 r2 : regex)
| RAlt (r1 r2 : regex)
| RStar (r : regex).

Definition cat (r1 r2 : regex) : regex :=
  match r1, r2 with
  | RNull, _ | _, RNull => RNull
  | REps, r | r, REps => r
  | _, _ => RCat r1 r2
  end.

Definition alt (r1 r2 : regex) : regex :=
  match r1, r2 with
  | RNull, r | r, RNull => r
  | _, _ => RAlt r1 r2
  end.

Fixpoint nullable (r : regex) : bool :=
  match r with
  | RNull => false
  | REps => true
  | RChar _ => false
  | RCat r1 r2 => nullable r1 && nullable r2
  | RAlt r1 r2 => nullable r1 || nullable r2
  | RStar _ => true
  end.

Fixpoint deriv (c : ascii) (r : regex) : regex :=
  match r with
  | RNull | REps => RNull
  | RChar p => if p c then REps else RNull
  | RCat r1 r2 =>
      if nullable r1 then alt (cat (deriv c r1) r2) (deriv c r2)
      else cat (deriv c r1) r2
  | RAlt r1 r2 => alt (deriv c r1) (deriv c r2)
  | RStar r1 => cat (deriv c r1) (RStar r1)
  end.

Definition is_null (r : regex) : bool :=
  match r with RNull => true | _ => false end.

(** [live] holds the derivatives of [r] by every suffix of the input read
    so far that started at some earlier position. *)
Fixpoint search_go (r : regex) (live : list regex) (s : string) : bool :=
  let live' := r :: live in
  if existsb nullable live' then true
  else match s with
       | EmptyString => false
       | String c s' =>
           search_go r (filter (fun x => negb (is_null x)) (map (deriv c) live')) s'
       end.

(** [re.search(r, s) is not None] *)
Definition search (r : regex) (s : string) : bool := search_go r [] s.

(** Building blocks. *)
Definition chr (c : ascii) : regex := RChar (fun d => Ascii.eqb c d).
Fixpoint lit (s : string) : regex :=
  match s with
  | EmptyString => REps
  | String c s' => RCat (chr c) (lit s')
  end.
Definition plus (r : regex) : regex := RCat r (RStar r).
(** [.] without DOTALL *)
Definition dot : regex := RChar (fun d => negb (Ascii.eqb d "010"%char)).
Definition dotstar : regex := RStar dot.
(** [\s], [\d] *)
Definition ws : regex := RChar Py.is_space.
Definition digit : regex := RChar Py.is_digit.
Definition seq (rs : list regex) : regex := fold_right RCat REps rs.
Definition alts (rs : list regex) : regex := fold_right RAlt RNull rs.

(** [(r)?] *)
Definition opt (r : regex) : regex := RAlt REps r.
(** [\w] *)
Definition word : regex := RChar Py.is_word.

(** Whether [r] matches a prefix of [s] ([re.match]). *)
Fixpoint match_prefix (r : regex) (s : string) : bool :=
  nullable r
  || match s with
     | EmptyString => false
     | String c s' =>
         let r' := deriv c r in
         if is_null r' then false else match_prefix r' s'
     end.

(** [re.search(r'\b' + r, s)] for a pattern [r] whose matches start with a
    word character: [\b] then holds where the previous character, if any,
    is not a word character. *)
Fixpoint search_word_start (r : regex) (prev_is_word : bool) (s : string) : bool :=
  (negb prev_is_word && match_prefix r s)
  || match s with
     | EmptyString => false
     | String c s' => search_word_start r (Py.is_word c) s'
     end.

End Re.

(** ** [SQLValidator] (src/services/sql_validator.py) *)
Module Validator.

(** The statement object [sqlparse.parse] yields; the validator only reads
    whether its [ttype] is [tokens.Whitespace]. *)
Record statement : Type := { stmt_ttype_is_whitespace : bool }.

(** Outcome of [sqlparse.parse(sql_query)]: it raises, returns an empty
    tuple, or returns statements of which the first is used. *)
Inductive parse_outcome : Type :=
| ParseRaises (msg : string)
| ParseEmpty
| ParseFirst (stmt : statement).

Record verdict : Type := {
  is_valid : bool;
  errors : list string;
  warnings : list string;
  suggestions : list string;
  optimized_sql : string;
  security_issues : list string }.

(** The text after the first occurrence of [pat] in [s], if any. *)
Fixpoint after_first (pat s : string) : option string :=
  if String.prefix pat s
  then Some (substring (String.length pat) (String.length s) s)
  else match s with
       | EmptyString => None
       | String _ s' => after_first pat s'
       end.

(** [re.sub(r'--.*?\n', '', s)]: a match runs from [--] to the first
    newline after it.  When no newline follows a [--], no later position
    can match either, and the rest of the text is kept. *)
Fixpoint sub_line_comments_fuel (fuel : nat) (s : string) : string :=
  match fuel with
  | O => s
  | S f =>
      match s with
      | EmptyString => EmptyString
      | String c s' =>
          if String.prefix "--" s
          then match after_first (String "010"%char EmptyString) s' with
               | Some rest => sub_line_comments_fuel f rest
               | None => s
               end
          else String c (sub_line_comments_fuel f s')
      end
  end.

Definition sub_line_comments (s : string) : string :=
  sub_line_comments_fuel (S (String.length s)) s.

(** [re.sub(r'/\*.*?\*/', '', s, flags=re.DOTALL)] *)
Fixpoint sub_block_comments_fuel (fuel : nat) (s : string) : string :=
  match fuel with
  | O => s
  | S f =>
      match s with
      | EmptyString => EmptyString
      | String c s' =>
          if String.prefix "/*" s
          then match after_first "*/" (substring 2 (String.length s) s) with
               | Some rest => sub_block_comments_fuel f rest
               | None => s
               end
          else String c (sub_block_comments_fuel f s')
      end
  end.

Definition sub_block_comments (s : string) : string :=
  sub_block_comments_fuel (S (String.length s)) s.

(** [is_read_only_query] *)
Definition is_read_only_query (sql_query : string) : bool :=
  let query_upper := Py.strip (Py.upper sql_query) in
  let cleaned_query := sub_line_comments query_upper in
  let cleaned_query := sub_block_comments cleaned_query in
  let cleaned_query := Py.strip cleaned_query in
  Py.startswith cleaned_query "SELECT" || Py.startswith cleaned_query "WITH".

Definition statement_keywords : list string :=
  ["SELECT"; "INSERT"; "UPDATE"; "DELETE"; "CREATE"; "ALTER"; "DROP"; "WITH"].

Definition err_parens := "Unbalanced parentheses in query".
Definition err_quotes := "Unbalanced single quotes in query".
Definition err_whitespace := "Query contains only whitespace".
Definition err_keyword := "Query does not contain a recognized SQL statement type".

(** [_validate_syntax]: each check appends to [errors]. *)
Definition _validate_syntax (sql_query : string) (parsed_stmt : statement)
  : list string :=
  let errors := [] in
  let errors :=
    if negb (Py.count_char "("%char sql_query =? Py.count_char ")"%char sql_query)%nat
    then (errors ++ [err_parens])%list else errors in
  let single_quotes := Py.count_char "'"%char sql_query in
  let errors :=
    if negb (Nat.eqb (Nat.modulo single_quotes 2) 0)
    then (errors ++ [err_quotes])%list else errors in
  let errors :=
    if stmt_ttype_is_whitespace parsed_stmt
    then (errors ++ [err_whitespace])%list else errors in
  let query_upper := Py.upper sql_query in
  let errors :=
    if negb (existsb (fun keyword => Py.contains query_upper keyword) statement_keywords)
    then (errors ++ [err_keyword])%list else errors in
  errors.

Definition err_empty := "SQL query is empty".
Definition err_not_read_only :=
  "Only SELECT queries are allowed. UPDATE, INSERT, DELETE, DROP, and other modification statements are prohibited for security.".
Definition err_unparsable := "Unable to parse SQL query".

Section ValidateAndOptimize.

(** The third-party [sqlparse] library: [parse] and [format] (the latter
    with the options of [_optimize_query]; [None] when it raises). *)
Variable sqlparse_parse : string -> parse_outcome.
Variable sqlparse_format : string -> option string.

(** The finding producers [_validate_security], [_analyze_performance] and
    [_validate_sqlserver_specifics]; each catches its own exceptions and
    returns a list of strings.  They only fill the non-fatal lists, so the
    statements below hold whatever they return. *)
Variable _validate_security : string -> list string.
Variable _analyze_performance : string -> statement -> list string.
Variable _validate_sqlserver_specifics : string -> list string.

(** [_optimize_query] *)
Definition _optimize_query (sql_query : string) (parsed_stmt : statement) : string :=
  match sqlparse_format sql_query with
  | Some formatted_query =>
      if Py.endswith (Py.strip formatted_query) ";"
      then formatted_query else formatted_query ++ ";"
  | None => sql_query
  end.

Definition rejected (sql_query : string) (err : string) : verdict :=
  {| is_valid := false; errors := [err]; warnings := []; suggestions := [];
     optimized_sql := sql_query; security_issues := [] |}.

(** [validate_and_optimize] *)
Definition validate_and_optimize (sql_query : string) : verdict :=
  if negb (Py.truthy sql_query) || negb (Py.truthy (Py.strip sql_query))
  then rejected sql_query err_empty
  else if negb (is_read_only_query sql_query)
  then rejected sql_query err_not_read_only
  else match sqlparse_parse sql_query with
       | ParseRaises e => rejected sql_query ("SQL parsing error: " ++ e)
       | ParseEmpty => rejected sql_query err_unparsable
       | ParseFirst parsed_stmt =>
           let errs := _validate_syntax sql_query parsed_stmt in
           let valid := match errs with [] => true | _ => false end in
           {| is_valid := valid;
              errors := errs;
              warnings := _validate_sqlserver_specifics sql_query;
              suggestions := _analyze_performance sql_query parsed_stmt;
              optimized_sql :=
                if valid then _optimize_query sql_query parsed_stmt else sql_query;
              security_issues := _validate_security sql_query |}
       end.

End ValidateAndOptimize.

(** *** [extract_table_names] and [_extract_tables_from_statement] *)

(** The token types of [sqlparse.tokens] a flattened token can carry; the
    loop only compares them by identity. *)
Inductive ttype : Type :=
| TKeyword
| TName
| TWhitespace
| TPunctuation
| TOperator
| TLiteral
| TOther.

Definition ttype_eqb (a b : ttype) : bool :=
  match a, b with
  | TKeyword, TKeyword | TName, TName | TWhitespace, TWhitespace
  | TPunctuation, TPunctuation | TOperator, TOperator | TLiteral, TLiteral
  | TOther, TOther => true
  | _, _ => false
  end.

(** [x is y] on token types, [None] included. *)
Definition ttype_is (a b : option ttype) : bool :=
  match a, b with
  | None, None => true
  | Some a', Some b' => ttype_eqb a' b'
  | _, _ => false
  end.

(** A token of [statement.flatten()]: [ttype], [value], [is_whitespace]. *)
Record token : Type := {
  tok_ttype : option ttype;
  tok_value : string;
  tok_is_whitespace : bool }.

(** [getattr(tokens, name)] where [tokens] is the local variable of
    [_extract_tables_from_statement]: the assignment
    [tokens = list(statement.flatten())] makes [tokens] local to the whole
    function, so it shadows the imported module [sqlparse.tokens], and a
    Python list has no attribute of that name: [AttributeError]. *)
Definition list_getattr (name : string) : option ttype + string :=
  inr ("'list' object has no attribute '" ++ name ++ "'").

(** [s.lstrip(chars)], [s.strip(chars)] *)
Fixpoint lstrip_chars (chars : list ascii) (s : string) : string :=
  match s with
  | EmptyString => EmptyString
  | String c s' => if existsb (Ascii.eqb c) chars then lstrip_chars chars s' else s
  end.

Definition strip_chars (chars : list ascii) (s : string) : string :=
  Py.rev_string (lstrip_chars chars (Py.rev_string (lstrip_chars chars s))).

(** [s.split(sep)[-1]] for a one-character separator. *)
Fixpoint split_last_go (sep : ascii) (cur s : string) : string :=
  match s with
  | EmptyString => cur
  | String c s' =>
      if Ascii.eqb c sep then split_last_go sep EmptyString s'
      else split_last_go sep (cur ++ String c EmptyString) s'
  end.

Definition split_last (sep : ascii) (s : string) : string := split_last_go sep EmptyString s.

(** The argument of [strip]: brackets, backquote and double quote. *)
Definition bracket_chars : list ascii :=
  ["["%char; "]"%char; "`"%char; Ascii.ascii_of_nat 34].

(** The inner loop over [range(i + 1, len(tokens))]: the table name taken
    from the first token with no type that is not whitespace. *)
Fixpoint next_table_name (rest : list token) : option string :=
  match rest with
  | [] => None
  | next_token :: rest' =>
      if ttype_is (tok_ttype next_token) None && negb (tok_is_whitespace next_token)
      then let table_name := strip_chars bracket_chars (tok_value next_token) in
           let table_name :=
             if Py.contains table_name "." then split_last "."%char table_name
             else table_name in
           Some table_name
      else next_table_name rest'
  end.

(** The outer loop [for i, token in enumerate(tokens)], with the list
    [tables] it appends to; an exception stops it, and [tables] keeps what
    was appended before. *)
Fixpoint scan_tokens (toks : list token) (tables : list string)
  : list string * option string :=
  match toks with
  | [] => (tables, None)
  | token :: rest =>
      match list_getattr "Keyword" with
      | inr e => (tables, Some e)
      | inl keyword =>
          if ttype_is (tok_ttype token) keyword
             && existsb (String.eqb (Py.upper (tok_value token)))
                  ["FROM"; "JOIN"; "UPDATE"; "INTO"]
          then scan_tokens rest
                 match next_table_name rest with
                 | Some t => (tables ++ [t])%list
                 | None => tables
                 end
          else scan_tokens rest tables
      end
  end.

(** [_extract_tables_from_statement]: the statement is given by its
    flattened tokens; the exception is logged and [tables] returned. *)
Definition _extract_tables_from_statement (flat : list token) : list string :=
  fst (scan_tokens flat []).

Section ExtractTableNames.

(** [sqlparse.parse(sql_query)], each statement by its flattened tokens
    ([None] when it raises), and [list(set(tables))], whose order depends on
    string hashing. *)
Variable sqlparse_parse_all : string -> option (list (list token)).
Variable py_list_set : list string -> list string.

(** [extract_table_names] *)
Definition extract_table_names (sql_query : string) : list string :=
  match sqlparse_parse_all sql_query with
  | None => []
  | Some parsed =>
      let tables := concat (map _extract_tables_from_statement parsed) in
      py_list_set tables
  end.

End ExtractTableNames.

(** *** [_validate_security] *)

(** [(\s|%20)] *)
Definition space_or_pct20 : Re.regex := Re.alts [Re.ws; Re.lit "%20"].

(** [self.injection_patterns]: each pattern's source text, used in the
    message, and the pattern.  The query is lower-cased before the search
    and the patterns hold no upper-case letter, so [re.IGNORECASE] changes
    no match. *)
Definition injection_patterns : list (string * Re.regex) :=
  [ ("('|(\\'))((\s|%20)+)?((\s|%20)+)?(union|select|insert|delete|update|create|drop|exec|execute)",
     Re.seq [Re.alts [Re.chr "'"%char; Re.lit "\'"];
             Re.opt (Re.plus space_or_pct20); Re.opt (Re.plus space_or_pct20);
             Re.alts (map Re.lit ["union"; "select"; "insert"; "delete"; "update";
                                  "create"; "drop"; "exec"; "execute"])]);
    ("(union(\s|%20)+select)",
     Re.seq [Re.lit "union"; Re.plus space_or_pct20; Re.lit "select"]);
    ("(select.*from.*information_schema)",
     Re.seq [Re.lit "select"; Re.dotstar; Re.lit "from"; Re.dotstar;
             Re.lit "information_schema"]);
    ("(select.*from.*sys\.)",
     Re.seq [Re.lit "select"; Re.dotstar; Re.lit "from"; Re.dotstar; Re.lit "sys."]);
    ("(exec(\s|%20)+xp_)",
     Re.seq [Re.lit "exec"; Re.plus space_or_pct20; Re.lit "xp_"]);
    ("(sp_executesql)", Re.lit "sp_executesql");
    ("(;\s*(drop|delete|truncate|update|insert))",
     Re.seq [Re.chr ";"%char; Re.RStar Re.ws;
             Re.alts (map Re.lit ["drop"; "delete"; "truncate"; "update"; "insert"])]) ].

Definition dangerous_functions : list string :=
  ["xp_cmdshell"; "sp_oacreate"; "sp_oamethod"; "openrowset"; "opendatasource"].

(** [r'(sys\.|information_schema\.)'] *)
Definition system_tables : Re.regex :=
  Re.alts [Re.lit "sys."; Re.lit "information_schema."].

(** [_validate_security]; on a string nothing in its body raises. *)
Definition _validate_security (sql_query : string) : list string :=
  let query_lower := Py.lower sql_query in
  (flat_map (fun '(pattern, r) =>
               if Re.search r query_lower
               then [("Potential SQL injection pattern detected: " ++ pattern)%string]
               else [])
            injection_patterns
   ++ flat_map (fun func =>
                  if Py.contains query_lower func
                  then [("Dangerous function detected: " ++ func)%string]
                  else [])
               dangerous_functions
   ++ (if Re.search system_tables query_lower
       then ["Access to system tables detected - ensure this is intentional"] else [])
   ++ (if Py.contains query_lower "exec(" || Py.contains query_lower "execute("
       then ["Dynamic SQL execution detected - ensure proper parameterization"] else []))%list.

(** *** [_validate_sqlserver_specifics] *)

(** [r'\bfrom\s+\w+\s+'] *)
Definition from_table : Re.regex :=
  Re.seq [Re.lit "from"; Re.plus Re.ws; Re.plus Re.word; Re.plus Re.ws].

(** [r"'[0-9]{1,2}/[0-9]{1,2}/[0-9]{4}'"] *)
Definition us_date : Re.regex :=
  Re.seq [Re.chr "'"%char; Re.digit; Re.RAlt Re.REps Re.digit; Re.chr "/"%char;
          Re.digit; Re.RAlt Re.REps Re.digit; Re.chr "/"%char;
          Re.digit; Re.digit; Re.digit; Re.digit; Re.chr "'"%char].

(** [deprecated_features], in the dict's insertion order. *)
Definition deprecated_features : list (string * string) :=
  [("text", "TEXT data type is deprecated, use VARCHAR(MAX)");
   ("ntext", "NTEXT data type is deprecated, use NVARCHAR(MAX)");
   ("image", "IMAGE data type is deprecated, use VARBINARY(MAX)");
   ("timestamp", "TIMESTAMP is deprecated, use ROWVERSION")].

(** [_validate_sqlserver_specifics]; on a string nothing in its body
    raises. *)
Definition _validate_sqlserver_specifics (sql_query : string) : list string :=
  let query_lower := Py.lower sql_query in
  (flat_map (fun '(feature, message) =>
               if Py.contains query_lower feature then [message] else [])
            deprecated_features
   ++ (if Re.search_word_start from_table false query_lower
          && negb (Py.contains query_lower "dbo.")
       then ["Consider using schema-qualified table names (e.g., dbo.TableName)"] else [])
   ++ (if Py.contains query_lower "nolock"
       then ["NOLOCK hint can cause dirty reads - use carefully"] else [])
   ++ (if Re.search us_date sql_query
       then ["Use ISO date format (YYYY-MM-DD) for better portability"] else []))%list.

End Validator.

(** ** [QueryFeedbackService] (src/services/query_feedback_service.py) *)
Module Feedback.

(** The [sql_query] argument as the HTTP endpoint hands it over: a JSON
    string or [null]. *)
Inductive pyval : Type :=
| PyStr (s : string)
| PyNone.

(** [str(e)] of the [AttributeError] raised by [None.m()]. *)
Definition attr_error (m : string) : string :=
  "'NoneType' object has no attribute '" ++ m ++ "'".

(** [str(e)] of the [TypeError] raised by [re.search(p, None)]. *)
Definition search_type_error : string :=
  "expected string or bytes-like object, got 'NoneType'".

(** *** The locals of an analysis stage, and its exceptions *)

(** Each stage keeps a [score] and a list of findings in locals; a raised
    exception leaves them as they were when it was raised. *)
Record locals : Type := { score : Z; findings : list string }.

Definition M (A : Type) : Type := locals -> locals * (A + string).

Definition ret {A} (a : A) : M A := fun l => (l, inl a).

Definition bind {A B} (m : M A) (k : A -> M B) : M B :=
  fun l => match m l with
           | (l', inl a) => k a l'
           | (l', inr e) => (l', inr e)
           end.

Definition raise {A} (e : string) : M A := fun l => (l, inr e).

Notation "x <- m ;; k" := (bind m (fun x => k))
  (at level 61, m at next level, right associativity).
Notation "m ;; k" := (bind m (fun _ => k)) (at level 61, right associativity).

(** [score -= n], [score += n], [score = n], [findings.append(s)] *)
Definition sub_score (n : Z) : M unit :=
  fun l => ({| score := score l - n; findings := findings l |}, inl tt).
Definition add_score (n : Z) : M unit :=
  fun l => ({| score := score l + n; findings := findings l |}, inl tt).
Definition set_score (n : Z) : M unit :=
  fun l => ({| score := n; findings := findings l |}, inl tt).
Definition append (s : string) : M unit :=
  fun l => ({| score := score l; findings := (findings l ++ [s])%list |}, inl tt).

Definition when (b : bool) (m : M unit) : M unit := if b then m else ret tt.

(** [for x in xs: body(x)] *)
Fixpoint for_each {A} (xs : list A) (body : A -> M unit) : M unit :=
  match xs with
  | [] => ret tt
  | x :: xs' => body x ;; for_each xs' body
  end.

(** [try: body / except Exception as e: handler(str(e))] *)
Definition try_except (body : M unit) (handler : string -> M unit) : M unit :=
  fun l => match body l with
           | (l', inl _) => (l', inl tt)
           | (l', inr e) => handler e l'
           end.

(** A method of [str] called on the argument. *)
Definition py_method {A} (name : string) (f : string -> A) (v : pyval) : M A :=
  match v with
  | PyStr s => ret (f s)
  | PyNone => raise (attr_error name)
  end.

Definition py_search (r : Re.regex) (v : pyval) : M bool :=
  match v with
  | PyStr s => ret (Re.search r s)
  | PyNone => raise search_type_error
  end.

Definition run_locals (init : Z) (m : M unit) : locals :=
  fst (m {| score := init; findings := [] |}).

Record stage_result : Type := { st_score : Z; st_items : list string }.

(** *** [_analyze_syntax] *)

Definition syntax_injection_patterns : list (string * Re.regex) :=
  [ ("';.*--", Re.seq [Re.lit "';"; Re.dotstar; Re.lit "--"]);
    ("UNION.*SELECT", Re.seq [Re.lit "UNION"; Re.dotstar; Re.lit "SELECT"]);
    ("DROP\s+TABLE", Re.seq [Re.lit "DROP"; Re.plus Re.ws; Re.lit "TABLE"]);
    ("DELETE\s+FROM.*WHERE\s+1\s*=\s*1",
      Re.seq [Re.lit "DELETE"; Re.plus Re.ws; Re.lit "FROM"; Re.dotstar;
              Re.lit "WHERE"; Re.plus Re.ws; Re.lit "1"; Re.RStar Re.ws;
              Re.lit "="; Re.RStar Re.ws; Re.lit "1"]) ].

(** [WHERE|JOIN|GROUP BY|ORDER BY] *)
Definition clause_re : Re.regex :=
  Re.alts [Re.lit "WHERE"; Re.lit "JOIN"; Re.lit "GROUP BY"; Re.lit "ORDER BY"].

Definition syntax_body (sql_query : pyval) : M unit :=
  query_upper <- py_method "upper" (fun s => Py.strip (Py.upper s)) sql_query ;;
  when (negb (existsb (Py.contains query_upper) ["SELECT"; "INSERT"; "UPDATE"; "DELETE"]))
    (sub_score 50 ;; append "No valid SQL statement detected") ;;
  opens <- py_method "count" (Py.count_char "("%char) sql_query ;;
  closes <- py_method "count" (Py.count_char ")"%char) sql_query ;;
  when (negb (opens =? closes)%nat)
    (sub_score 20 ;; append "Unmatched parentheses") ;;
  for_each syntax_injection_patterns (fun '(pattern, r) =>
    when (Re.search r query_upper)
      (sub_score 30 ;;
       append ("Potential SQL injection pattern detected: " ++ pattern))) ;;
  when (Py.contains query_upper "SELECT *")
    (sub_score 10 ;; append "Consider specifying column names instead of SELECT *") ;;
  when (negb (Re.search clause_re query_upper))
    (sub_score 5 ;; append "Query might benefit from filtering or sorting clauses").

Definition _analyze_syntax (sql_query : pyval) : stage_result :=
  let l := run_locals 100
             (try_except (syntax_body sql_query)
                (fun e => set_score 0 ;; append ("Syntax analysis error: " ++ e))) in
  {| st_score := Z.max 0 (score l); st_items := findings l |}.

(** *** [_analyze_semantic_alignment] *)

(** [intent_keywords], in the dict's insertion order; the keywords are
    tested with [in], as substrings. *)
Definition intent_keywords : list (string * list string) :=
  [ ("retrieve", ["SELECT"; "SHOW"]);
    ("count", ["COUNT"; "SUM"]);
    ("filter", ["WHERE"; "HAVING"]);
    ("sort", ["ORDER BY"]);
    ("group", ["GROUP BY"]);
    ("join", ["JOIN"; "INNER JOIN"; "LEFT JOIN"]);
    ("aggregate", ["SUM"; "AVG"; "COUNT"; "MAX"; "MIN"]);
    ("recent", ["ORDER BY.*DESC"; "TOP"; "LIMIT"]);
    ("total", ["SUM"; "COUNT"]);
    ("average", ["AVG"]);
    ("maximum", ["MAX"]);
    ("minimum", ["MIN"]) ].

Definition time_indicators : list string :=
  ["today"; "yesterday"; "last week"; "this month"; "recent"].

(** [DATE|GETDATE|NOW\(\)|CURDATE] *)
Definition date_re : Re.regex :=
  Re.alts [Re.lit "DATE"; Re.lit "GETDATE"; Re.lit "NOW()"; Re.lit "CURDATE"].

(** [re.findall(r'\b\w+\b', s)]: the maximal runs of word characters. *)
Fixpoint findall_words_go (cur s : string) : list string :=
  match s with
  | EmptyString => if Py.truthy cur then [cur] else []
  | String c s' =>
      if Py.is_word c then findall_words_go (cur ++ String c EmptyString) s'
      else if Py.truthy cur then cur :: findall_words_go EmptyString s'
      else findall_words_go EmptyString s'
  end.

Definition findall_words (s : string) : list string := findall_words_go EmptyString s.

Definition intent_issue (intent : string) : string :=
  "Natural language suggests '" ++ intent ++ "' but SQL query doesn't reflect this".

Definition table_issue (table : string) : string :=
  "Mentioned table '" ++ table ++ "' not found in query".

Definition time_issue : string :=
  "Natural language mentions time constraints but query lacks date filtering".

(** [# Check intent alignment] *)
Definition check_intents (nl_lower sql_upper : string) : M unit :=
  for_each intent_keywords (fun '(intent, keywords) =>
    when (Py.contains nl_lower intent)
      (if negb (existsb (Py.contains sql_upper) keywords)
       then sub_score 15 ;; append (intent_issue intent)
       else add_score 5)).

(** [# Check for table/column name alignment with schema] *)
Definition check_tables (nl_lower sql_upper schema_context : string) : M unit :=
  when (Py.truthy schema_context)
    (let schema_lower := Py.lower schema_context in
     for_each (findall_words nl_lower) (fun table =>
       when (Py.contains schema_lower table && negb (Py.contains sql_upper (Py.upper table)))
         (sub_score 10 ;; append (table_issue table)))).

(** [# Time-based query checks] *)
Definition check_time (nl_lower sql_upper : string) : M unit :=
  when (existsb (Py.contains nl_lower) time_indicators)
    (when (negb (Re.search date_re sql_upper))
       (sub_score 20 ;; append time_issue)).

Definition semantic_body (sql_query : pyval) (natural_language schema_context : string)
  : M unit :=
  let nl_lower := Py.lower natural_language in
  sql_upper <- py_method "upper" Py.upper sql_query ;;
  check_intents nl_lower sql_upper ;;
  check_tables nl_lower sql_upper schema_context ;;
  check_time nl_lower sql_upper.

Definition clamp100 (z : Z) : Z := Z.max 0 (Z.min 100 z).

Definition _analyze_semantic_alignment (sql_query : pyval)
  (natural_language schema_context : string) : stage_result :=
  if negb (Py.truthy natural_language)
  then {| st_score := 70; st_items := ["No natural language context provided"] |}
  else
    let l := run_locals 70
               (try_except (semantic_body sql_query natural_language schema_context)
                  (fun e => set_score 50 ;; append ("Semantic analysis error: " ++ e))) in
    {| st_score := clamp100 (score l); st_items := findings l |}.

(** *** [_analyze_performance] *)

Definition quote_char : Re.regex :=
  Re.RChar (fun c => Ascii.eqb c "'"%char || Ascii.eqb c (Ascii.ascii_of_nat 34)).

(** [WHERE.*LIKE\s+['"]%.*%['"]] *)
Definition like_re : Re.regex :=
  Re.seq [Re.lit "WHERE"; Re.dotstar; Re.lit "LIKE"; Re.plus Re.ws; quote_char;
          Re.lit "%"; Re.dotstar; Re.lit "%"; quote_char].

(** [LIMIT|TOP\s+\d+] *)
Definition limit_re : Re.regex :=
  Re.alts [Re.lit "LIMIT"; Re.seq [Re.lit "TOP"; Re.plus Re.ws; Re.plus Re.digit]].

Definition performance_body (sql_query : pyval) : M unit :=
  query_upper <- py_method "upper" Py.upper sql_query ;;
  when (Py.contains query_upper "SELECT *")
    (sub_score 15 ;;
     append "Replace SELECT * with specific column names to improve performance") ;;
  when (Re.search like_re query_upper)
    (sub_score 20 ;; append "Leading wildcard in LIKE clause can prevent index usage") ;;
  when (Py.contains query_upper "ORDER BY" && negb (Py.contains query_upper "LIMIT")
        && negb (Py.contains query_upper "TOP"))
    (sub_score 10 ;; append "Consider adding LIMIT/TOP clause when ordering results") ;;
  let subquery_count := (Z.of_nat (Py.count_sub "SELECT" query_upper) - 1)%Z in
  when (2 <? subquery_count)%Z
    (sub_score 15 ;;
     append "Multiple subqueries detected - consider using JOINs for better performance") ;;
  when (existsb (Py.contains query_upper) ["UPDATE"; "DELETE"]
        && negb (Py.contains query_upper "WHERE"))
    (sub_score 30 ;;
     append "UPDATE/DELETE without WHERE clause can affect performance and data integrity") ;;
  when (Py.contains query_upper "DISTINCT")
    (sub_score 5 ;; append "DISTINCT can be expensive - ensure it's necessary") ;;
  when (Py.contains query_upper "INDEX" || Py.contains query_upper "INDEXED")
    (add_score 10 ;; append "Good: Query appears to consider indexing") ;;
  when (Re.search limit_re query_upper)
    (add_score 10 ;; append "Good: Query limits result set size").

Definition _analyze_performance (sql_query : pyval) : stage_result :=
  let l := run_locals 80
             (try_except (performance_body sql_query)
                (fun e => set_score 50 ;; append ("Performance analysis error: " ++ e))) in
  {| st_score := clamp100 (score l); st_items := findings l |}.

(** *** [_analyze_security] *)

(** [injection_patterns]: (pattern, warning), matched against [query_upper]
    case-sensitively. *)
Definition injection_patterns : list (Re.regex * string) :=
  [ (Re.seq [Re.lit "';"; Re.dotstar; Re.lit "--"],
       "Potential SQL injection with comment termination");
    (Re.seq [Re.lit "UNION"; Re.dotstar; Re.lit "SELECT"], "UNION-based injection pattern");
    (Re.seq [Re.lit "DROP"; Re.plus Re.ws; Re.lit "TABLE"], "Dangerous DROP statement");
    (Re.seq [Re.lit "EXEC"; Re.RStar Re.ws; Re.lit "("], "Dynamic SQL execution detected");
    (Re.lit "SHUTDOWN", "System shutdown command");
    (Re.lit "xp_cmdshell", "Command shell execution");
    (Re.lit "sp_configure", "System configuration access") ].

(** [PASSWORD\s*=|PWD\s*=] *)
Definition credentials_re : Re.regex :=
  Re.alts [Re.seq [Re.lit "PASSWORD"; Re.RStar Re.ws; Re.lit "="];
           Re.seq [Re.lit "PWD"; Re.RStar Re.ws; Re.lit "="]].

(** [WHERE\s+1\s*=\s*1] *)
Definition permissive_re : Re.regex :=
  Re.seq [Re.lit "WHERE"; Re.plus Re.ws; Re.lit "1"; Re.RStar Re.ws; Re.lit "=";
          Re.RStar Re.ws; Re.lit "1"].

(** [WHERE.*=\s*[@?]], matched against the original [sql_query]. *)
Definition parameterized_re : Re.regex :=
  Re.seq [Re.lit "WHERE"; Re.dotstar; Re.lit "="; Re.RStar Re.ws;
          Re.RChar (fun c => Ascii.eqb c "@"%char || Ascii.eqb c "?"%char)].

Definition security_body (sql_query : pyval) : M unit :=
  query_upper <- py_method "upper" Py.upper sql_query ;;
  for_each injection_patterns (fun '(pattern, warning) =>
    when (Re.search pattern query_upper) (sub_score 30 ;; append warning)) ;;
  when (Re.search credentials_re query_upper)
    (sub_score 40 ;; append "Hardcoded credentials detected") ;;
  when (Re.search permissive_re query_upper)
    (sub_score 20 ;; append "Overly permissive WHERE clause (1=1)") ;;
  parameterized <- py_search parameterized_re sql_query ;;
  when parameterized (add_score 10 ;; append "Good: Parameterized query detected").

Definition _analyze_security (sql_query : pyval) : stage_result :=
  let l := run_locals 100
             (try_except (security_body sql_query)
                (fun e => set_score 50 ;; append ("Security analysis error: " ++ e))) in
  {| st_score := Z.max 0 (score l); st_items := findings l |}.

(** The security screener's table of deducting rules, in the order the
    source applies them: the seven [injection_patterns] (30 each), the
    credentials pattern (40) and the permissive-WHERE pattern (20). *)
Definition security_rules : list (Re.regex * Z) :=
  (map (fun '(pattern, _) => (pattern, 30%Z)) injection_patterns
   ++ [(credentials_re, 40%Z); (permissive_re, 20%Z)])%list.

(** Every rule of the table that [q2] matches, [q1] matches too. *)
Definition matches_superset (q1 q2 : string) : bool :=
  forallb (fun '(pattern, _) =>
             implb (Re.search pattern (Py.upper q2)) (Re.search pattern (Py.upper q1)))
    security_rules.

(** The parameter-marker bonus condition. *)
Definition has_parameter_marker (q : string) : bool := Re.search parameterized_re q.

(** The total penalty of the rules [q] matches. *)
Definition security_deduction (q : string) : Z :=
  fold_right (fun '(pattern, penalty) acc =>
                ((if Re.search pattern (Py.upper q) then penalty else 0) + acc)%Z)
    0%Z security_rules.

(** *** [_test_query_execution] *)

(** A [connection_info] dict with string values. *)
Definition dict := list (string * string).

(** [d.get(k, default)] *)
Fixpoint dict_get (d : dict) (k default : string) : string :=
  match d with
  | [] => default
  | (k', v) :: d' => if String.eqb k k' then v else dict_get d' k default
  end.

(** The truthiness of an optional dict: [None] and [{}] are falsy. *)
Definition dict_truthy (d : option dict) : bool :=
  match d with Some (_ :: _) => true | _ => false end.

(** The dict the method returns: on failure it carries ['error']. *)
Inductive exec_result : Type :=
| ExecFailed (error : string)
| ExecSucceeded (execution_time : Q) (row_count : nat) (columns : list string).

Definition exec_success (r : exec_result) : bool :=
  match r with ExecSucceeded _ _ _ => true | ExecFailed _ => false end.

Definition exec_error (r : exec_result) : string :=
  match r with ExecFailed e => e | ExecSucceeded _ _ _ => "Unknown error" end.

Definition build_conn_str (connection_info : dict) : string :=
  let auth_type := dict_get connection_info "auth_type" "sql" in
  let server := dict_get connection_info "host" "localhost" in
  let port := dict_get connection_info "port" "1433" in
  let database := dict_get connection_info "database" "master" in
  if String.eqb auth_type "windows"
  then "DRIVER={ODBC Driver 17 for SQL Server};SERVER=" ++ server ++ "," ++ port
       ++ ";DATABASE=" ++ database
       ++ ";Trusted_Connection=yes;TrustServerCertificate=yes;Encrypt=yes"
  else let username := dict_get connection_info "username" "" in
       let password := dict_get connection_info "password" "" in
       "DRIVER={ODBC Driver 17 for SQL Server};SERVER=" ++ server ++ "," ++ port
       ++ ";DATABASE=" ++ database ++ ";UID=" ++ username ++ ";PWD=" ++ password
       ++ ";TrustServerCertificate=yes;Encrypt=yes".

Definition only_select_error : string := "Only SELECT queries are executed for safety".
Definition no_connection_error : string := "Database connection not available".

(** Opening a connection: [pyodbc.connect(conn_str, timeout=30)], entering
    its [with] block or [conn.cursor()] raised [e]; or the connection opened.
    The connection is not in autocommit mode, so leaving the block ends the
    transaction: a commit when the block is left normally (by [return]), a
    rollback when an exception leaves it; [commit_error] and
    [rollback_error] are what these raise, if anything. *)
Inductive connection : Type :=
| ConnectRaises (e : string)
| Opened (commit_error rollback_error : option string).

Section Execution.

(** The [pyodbc] driver: whether it imported; what opening the connection
    for [conn_str] gives; and [cursor.execute(q); cursor.fetchall()] on that
    connection: an error, or the row count, the column names and the elapsed
    time rounded as the source rounds it. *)
Variable PYODBC_AVAILABLE : bool.
Variable pyodbc_connect : string -> connection.
Variable cursor_execute : string -> string -> string + (nat * list string * Q).

(** The statement sent to [cursor.execute] is returned next to the result,
    as the list of statements executed. *)
Definition _test_query_execution (sql_query : pyval) (connection_info : option dict)
  : exec_result * list string :=
  match connection_info with
  | Some ci =>
      if negb PYODBC_AVAILABLE || negb (dict_truthy connection_info)
      then (ExecFailed no_connection_error, [])
      else
        let conn_str := build_conn_str ci in
        match pyodbc_connect conn_str with
        | ConnectRaises e => (ExecFailed e, [])
        | Opened commit_error rollback_error =>
            (* leaving the [with] block by [return r] *)
            let leave (r : exec_result) (sent : list string) :=
              match commit_error with
              | Some e => (ExecFailed e, sent)
              | None => (r, sent)
              end in
            (* leaving the [with] block by an exception [e] *)
            let leave_raising (e : string) (sent : list string) :=
              match rollback_error with
              | Some e' => (ExecFailed e', sent)
              | None => (ExecFailed e, sent)
              end in
            match sql_query with
            | PyNone => leave_raising (attr_error "strip") []
            | PyStr q =>
                if negb (Py.startswith (Py.upper (Py.strip q)) "SELECT")
                then leave (ExecFailed only_select_error) []
                else
                  let limited_query :=
                    if negb (Py.contains (Py.upper q) "LIMIT")
                       && negb (Py.contains (Py.upper q) "TOP")
                    then Py.replace_first "SELECT" "SELECT TOP 100" q
                    else q in
                  match cursor_execute conn_str limited_query with
                  | inl e => leave_raising e [limited_query]
                  | inr (rows, columns, elapsed) =>
                      leave (ExecSucceeded elapsed rows columns) [limited_query]
                  end
            end
        end
  | None => (ExecFailed no_connection_error, [])
  end.

(** *** [analyze_query_quality] *)

Record analysis : Type := {
  syntax_score : Z;
  semantic_score : Z;
  performance_score : Z;
  security_score : Z;
  overall_score : Q }.

(** The returned dict, without its timestamp. [execution_results] is
    [None] for the empty dict [{}]. *)
Record feedback : Type := {
  fb_query : pyval;
  fb_natural_language : string;
  fb_analysis : analysis;
  syntax_issues : list string;
  semantic_issues : list string;
  performance_suggestions : list string;
  security_warnings : list string;
  correctness_issues : list string;
  execution_results : option exec_result;
  recommendations : list string }.

(** Python evaluates [s*0.3 + m*0.3 + p*0.2 + c*0.2] in floating point;
    the model keeps the exact rational value. *)
Definition weighted_overall (syn sem perf sec : Z) : Q :=
  (inject_Z syn * (3 # 10) + inject_Z sem * (3 # 10)
   + inject_Z perf * (2 # 10) + inject_Z sec * (2 # 10))%Q.

(** [_generate_recommendations] *)
Definition _generate_recommendations (a : analysis) (exec : option exec_result)
  : list string :=
  let overall := overall_score a in
  ([ if Qle_bool 90 overall
    then "Excellent query! This SQL appears to be well-structured and efficient."
    else if Qle_bool 70 overall then "Good query with room for minor improvements."
    else if Qle_bool 50 overall
    then "Query needs attention in several areas for optimal performance."
    else "Query requires significant improvements before production use." ]
  ++ (if (syntax_score a <? 70)%Z then ["Review SQL syntax and fix any structural issues."] else [])
  ++ (if (semantic_score a <? 70)%Z
      then ["Ensure the query accurately reflects the natural language intent."] else [])
  ++ (if (performance_score a <? 70)%Z
      then ["Consider performance optimizations like indexing and query restructuring."]
      else [])
  ++ (if (security_score a <? 80)%Z
      then ["Address security concerns before using this query in production."] else [])
  ++ match exec with
     | Some (ExecSucceeded exec_time _ _) =>
         if negb (Qle_bool exec_time 5)
         then ["Query execution time is high - consider optimization."]
         else if negb (Qle_bool (1 # 10) exec_time) then ["Good: Query executes efficiently."]
         else []
     | _ => []
     end)%list.

(** [analyze_query_quality]; the service's [feedback_history] is threaded
    through: the new entry is appended to it. *)
Definition analyze_query_quality (feedback_history : list feedback) (sql_query : pyval)
  (schema_context natural_language : string) (connection_info : option dict)
  : feedback * list feedback :=
  let syn := _analyze_syntax sql_query in
  let sem := _analyze_semantic_alignment sql_query natural_language schema_context in
  let perf := _analyze_performance sql_query in
  let sec := _analyze_security sql_query in
  let '(exec, syntax, correctness) :=
    if dict_truthy connection_info
    then let r := fst (_test_query_execution sql_query connection_info) in
         if exec_success r
         then (Some r, Z.min 100 (st_score syn + 20), [])
         else (Some r, Z.max 0 (st_score syn - 30),
               ["Query execution failed: " ++ exec_error r])
    else (None, st_score syn, []) in
  let a := {| syntax_score := syntax;
              semantic_score := st_score sem;
              performance_score := st_score perf;
              security_score := st_score sec;
              overall_score := weighted_overall syntax (st_score sem) (st_score perf)
                                 (st_score sec) |} in
  let fb := {| fb_query := sql_query;
               fb_natural_language := natural_language;
               fb_analysis := a;
               syntax_issues := st_items syn;
               semantic_issues := st_items sem;
               performance_suggestions := st_items perf;
               security_warnings := st_items sec;
               correctness_issues := correctness;
               execution_results := exec;
               recommendations := _generate_recommendations a exec |} in
  (fb, (feedback_history ++ [fb])%list).

End Execution.

End Feedback.

(** ** The feedback history of [QueryFeedbackService] *)
Module FeedbackStore.
Import Feedback.

(** [xs[start:]] with Python's clamping of the start index. *)
Definition py_slice_from {A} (start : Z) (xs : list A) : list A :=
  let n := Z.of_nat (length xs) in
  let i := if (start <? 0)%Z then Z.max 0 (n + start) else Z.min start n in
  skipn (Z.to_nat i) xs.

(** [sum(xs) / len(xs)] *)
Definition q_avg (xs : list Q) : Q :=
  (fold_left Qplus xs 0 / inject_Z (Z.of_nat (length xs)))%Q.

(** [issue_counts[issue] = issue_counts.get(issue, 0) + 1] on a dict kept
    in insertion order. *)
Fixpoint bump (d : list (string * nat)) (issue : string) : list (string * nat) :=
  match d with
  | [] => [(issue, 1%nat)]
  | (k, n) :: d' =>
      if String.eqb issue k then (k, S n) :: d' else (k, n) :: bump d' issue
  end.

Definition count_issues (all_issues : list string) : list (string * nat) :=
  fold_left bump all_issues [].

(** [sorted(items, key=lambda x: x[1], reverse=True)]: Python's sort is
    stable, also with [reverse=True], so items of equal count keep their
    order; each item is inserted after all items whose count is not
    smaller. *)
Fixpoint insert_desc (x : string * nat) (l : list (string * nat)) : list (string * nat) :=
  match l with
  | [] => [x]
  | y :: l' => if (snd y <? snd x)%nat then x :: l else y :: insert_desc x l'
  end.

Definition sort_desc (l : list (string * nat)) : list (string * nat) :=
  fold_left (fun acc x => insert_desc x acc) l [].

Record average_scores : Type := {
  avg_syntax : Q;
  avg_semantic : Q;
  avg_performance : Q;
  avg_security : Q;
  avg_overall : Q }.

(** The dict [get_feedback_summary] returns. *)
Inductive summary : Type :=
| NoFeedback (message : string)
| FeedbackSummary (total_queries_analyzed : nat) (avg : average_scores)
    (common_issues : list (string * nat)) (recent_feedback : list feedback).

Definition issues_of (f : feedback) : list string :=
  (syntax_issues f ++ semantic_issues f ++ performance_suggestions f
   ++ security_warnings f)%list.

(** [get_feedback_summary(limit)] on the service's [feedback_history]. *)
Definition get_feedback_summary (feedback_history : list feedback) (limit : Z) : summary :=
  let recent_feedback :=
    match feedback_history with
    | [] => []
    | _ => py_slice_from (- limit) feedback_history
    end in
  match recent_feedback with
  | [] => NoFeedback "No feedback data available"
  | _ =>
      let scores (field : analysis -> Z) :=
        q_avg (map (fun f => inject_Z (field (fb_analysis f))) recent_feedback) in
      let avg := {| avg_syntax := scores syntax_score;
                    avg_semantic := scores semantic_score;
                    avg_performance := scores performance_score;
                    avg_security := scores security_score;
                    avg_overall :=
                      q_avg (map (fun f => overall_score (fb_analysis f)) recent_feedback) |} in
      let all_issues := flat_map issues_of recent_feedback in
      let issue_counts := count_issues all_issues in
      let common_issues := firstn 5 (sort_desc issue_counts) in
      FeedbackSummary (length recent_feedback) avg common_issues recent_feedback
  end.

(** The [query_id] of a [/feedback/submit] request body: any JSON value;
    the ids the application hands out are integers. *)
Inductive json_value : Type :=
| JNull
| JInt (z : Z)
| JStr (s : string)
| JOther.

(** Python's [==] between [None] and a JSON value. *)
Definition none_eq (v : json_value) : bool :=
  match v with JNull => true | _ => false end.

(** An entry of [feedback_history]: the dict [analyze_query_quality]
    stored, and the ['user_feedback'] key [submit_user_feedback] may add
    (rating and comments; the timestamp is left out). *)
Record entry : Type := {
  entry_feedback : feedback;
  user_feedback : option (Z * string) }.

(** [feedback.get('id')]: the dicts [analyze_query_quality] builds have no
    ['id'] key and nothing adds one, so the lookup yields [None]. *)
Definition entry_get_id (e : entry) : option json_value := None.

(** [feedback.get('id') == query_id] *)
Definition id_matches (e : entry) (query_id : json_value) : bool :=
  match entry_get_id e with
  | None => none_eq query_id
  | Some v =>
      match v, query_id with
      | JNull, JNull => true
      | JInt a, JInt b => Z.eqb a b
      | JStr a, JStr b => String.eqb a b
      | _, _ => false
      end
  end.

(** [submit_user_feedback]: the first matching entry gets the user's
    feedback; the result and the history after the call. *)
Fixpoint submit_user_feedback (feedback_history : list entry) (query_id : json_value)
  (user_rating : Z) (user_comments : string) : bool * list entry :=
  match feedback_history with
  | [] => (false, [])
  | e :: rest =>
      if id_matches e query_id
      then (true, {| entry_feedback := entry_feedback e;
                     user_feedback := Some (user_rating, user_comments) |} :: rest)
      else let '(found, rest') := submit_user_feedback rest query_id user_rating user_comments in
           (found, e :: rest')
  end.

End FeedbackStore.


(** * Properties *)

Section ValidatorProps.

Variable sqlparse_parse : string -> Validator.parse_outcome.
Variable sqlparse_format : string -> option string.
Variable validate_security : string -> list string.
Variable analyze_performance : string -> Validator.statement -> list string.
Variable validate_sqlserver_specifics : string -> list string.

Let validate := Validator.validate_and_optimize sqlparse_parse sqlparse_format
                  validate_security analyze_performance validate_sqlserver_specifics.

(** C2: [is_valid] is true exactly when [errors] is empty and the query is
    lexically read-only ([is_read_only_query]: comments removed, trimmed,
    upper-cased, starting with SELECT or WITH). *)
Theorem validate_is_valid_iff (sql_query : string) :
  Validator.is_valid (validate sql_query) = true <->
  Validator.errors (validate sql_query) = []
  /\ Validator.is_read_only_query sql_query = true.
Proof.
  unfold validate, Validator.validate_and_optimize.
  destruct (negb (Py.truthy sql_query) || negb (Py.truthy (Py.strip sql_query))).
  { simpl; split; [discriminate | intros [H _]; discriminate]. }
  destruct (Validator.is_read_only_query sql_query) eqn:Hro;
    [| simpl; split; [discriminate | intros [_ H]; discriminate]].
  simpl. destruct (sqlparse_parse sql_query) as [m | | st]; simpl;
    try (split; [discriminate | intros [H _]; discriminate]).
  destruct (Validator._validate_syntax sql_query st); simpl;
    split; try discriminate; auto; intros [H _]; discriminate.
Qed.

(** C3: a query that is not lexically read-only is rejected with exactly
    one error, and no security, performance or dialect finding. *)
Theorem validate_rejects_not_read_only (sql_query : string) :
  Validator.is_read_only_query sql_query = false ->
  Validator.is_valid (validate sql_query) = false
  /\ length (Validator.errors (validate sql_query)) = 1%nat
  /\ Validator.security_issues (validate sql_query) = []
  /\ Validator.suggestions (validate sql_query) = []
  /\ Validator.warnings (validate sql_query) = [].
Proof.
  intros Hro. unfold validate, Validator.validate_and_optimize.
  destruct (negb (Py.truthy sql_query) || negb (Py.truthy (Py.strip sql_query)));
    [| rewrite Hro]; simpl; repeat split.
Qed.

End ValidatorProps.


(** C8: [_validate_syntax] accumulates its checks: the parenthesis error is
    reported exactly when the counts of [(] and [)] differ, the quote error
    exactly when the count of ['] is odd, the keyword error exactly when no
    statement keyword occurs, each whatever the others decide; and when the
    tokenizer ([sqlparse.parse]) raises, [validate_and_optimize] returns a
    single error. *)
Theorem validate_syntax_accumulates (sql_query : string) (st : Validator.statement) :
  (In Validator.err_parens (Validator._validate_syntax sql_query st)
   <-> Py.count_char "("%char sql_query <> Py.count_char ")"%char sql_query)
  /\ (In Validator.err_quotes (Validator._validate_syntax sql_query st)
      <-> Nat.modulo (Py.count_char "'"%char sql_query) 2 <> 0%nat)
  /\ (In Validator.err_keyword (Validator._validate_syntax sql_query st)
      <-> existsb (Py.contains (Py.upper sql_query)) Validator.statement_keywords = false)
  /\ (forall msg fmt sec perf dialect,
        exists e, Validator.errors
                    (Validator.validate_and_optimize (fun _ => Validator.ParseRaises msg)
                       fmt sec perf dialect sql_query) = [e]).
Proof.
  unfold Validator._validate_syntax.
  destruct (Py.count_char "("%char sql_query =? Py.count_char ")"%char sql_query)%nat eqn:Hp;
  destruct (Nat.modulo (Py.count_char "'"%char sql_query) 2 =? 0)%nat eqn:Hq;
  destruct (Validator.stmt_ttype_is_whitespace st);
  destruct (existsb (Py.contains (Py.upper sql_query)) Validator.statement_keywords) eqn:Hk;
  apply Nat.eqb_eq in Hp || apply Nat.eqb_neq in Hp;
  apply Nat.eqb_eq in Hq || apply Nat.eqb_neq in Hq;
  simpl; (split; [| split; [| split]]);
  try (intros msg fmt sec perf dialect; unfold Validator.validate_and_optimize;
       destruct (_ || _); [eexists; reflexivity |];
       destruct (Validator.is_read_only_query sql_query); eexists; reflexivity);
  unfold Validator.err_parens, Validator.err_quotes, Validator.err_whitespace,
    Validator.err_keyword;
  split; intros H; simpl in *;
  repeat (destruct H as [H | H]; try discriminate); try contradiction;
  try tauto; try discriminate; try congruence; auto 10.
Qed.

Section FeedbackProps.
Import Feedback.

Lemma bind_ret {A B} (a : A) (k : A -> M B) : bind (ret a) k = k a.
Proof. reflexivity. Qed.

Lemma py_method_str {A} (name : string) (f : string -> A) (s : string) :
  py_method name f (PyStr s) = ret (f s).
Proof. reflexivity. Qed.

Lemma py_search_str (r : Re.regex) (s : string) :
  py_search r (PyStr s) = ret (Re.search r s).
Proof. reflexivity. Qed.

(** A loop of guarded deductions subtracts [k] and appends a message for
    every element whose guard holds. *)
Lemma for_each_when_sub {A} (xs : list A) (b : A -> bool) (k : Z) (msg : A -> string)
  (l : locals) :
  for_each xs (fun x => when (b x) (sub_score k ;; append (msg x))) l =
  ({| score := (score l - k * Z.of_nat (length (filter b xs)))%Z;
      findings := (findings l ++ map msg (filter b xs))%list |}, inl tt).
Proof.
  revert l; induction xs as [|x xs IH]; intros [s f]; simpl.
  - rewrite app_nil_r. unfold ret. rewrite Z.mul_0_r, Z.sub_0_r. reflexivity.
  - unfold bind at 1. destruct (b x); simpl.
    + rewrite IH. simpl. rewrite <- app_assoc. simpl. do 2 f_equal.
      rewrite Zpos_P_of_succ_nat. lia.
    + rewrite IH. reflexivity.
Qed.

(** The injection-pattern loop of [_analyze_security]. *)
Lemma injection_loop_score (xs : list (Re.regex * string)) (q : string) (l : locals) :
  exists f,
    for_each xs (fun '(pattern, warning) =>
                   when (Re.search pattern q) (sub_score 30 ;; append warning)) l
    = ({| score := (score l - fold_right (fun '(pattern, _) acc =>
                       ((if Re.search pattern q then 30 else 0) + acc)%Z) 0%Z xs)%Z;
          findings := f |}, inl tt).
Proof.
  revert l; induction xs as [| [p w] xs IH]; intros [sc f].
  - exists f. cbn. rewrite Z.sub_0_r. reflexivity.
  - cbn [for_each]. unfold bind at 1. cbn [fold_right].
    destruct (Re.search p q).
    + change (when true (sub_score 30 ;; append w) {| score := sc; findings := f |})
        with (@pair locals (unit + string) {| score := sc - 30; findings := (f ++ [w])%list |}
                (inl tt)).
      cbv beta iota.
      destruct (IH {| score := sc - 30; findings := (f ++ [w])%list |}) as [f' Hf].
      rewrite Hf. exists f'. cbn [score]. f_equal; f_equal; lia.
    + change (when false (sub_score 30 ;; append w) {| score := sc; findings := f |})
        with (@pair locals (unit + string) {| score := sc; findings := f |} (inl tt)).
      cbv beta iota.
      destruct (IH {| score := sc; findings := f |}) as [f' Hf].
      rewrite Hf. exists f'. cbn [score]. f_equal; f_equal; lia.
Qed.

Lemma security_score_str (q : string) :
  st_score (_analyze_security (PyStr q))
  = Z.max 0 (100 - security_deduction q + (if has_parameter_marker q then 10 else 0)).
Proof.
  unfold _analyze_security, run_locals, try_except, security_body.
  rewrite py_method_str, bind_ret.
  unfold bind at 1.
  destruct (injection_loop_score injection_patterns (Py.upper q)
              {| score := 100; findings := [] |}) as [f1 Hf1].
  rewrite Hf1.
  unfold security_deduction, security_rules, has_parameter_marker.
  rewrite fold_right_app. cbn [fold_right].
  unfold bind. rewrite py_search_str.
  destruct (Re.search credentials_re (Py.upper q));
  destruct (Re.search permissive_re (Py.upper q));
  destruct (Re.search parameterized_re q);
  cbn [when sub_score add_score append ret score fst findings st_score];
  cbn [score];
  match goal with
  | |- Z.max 0 ?a = Z.max 0 ?b => replace a with b; [reflexivity |]
  end;
  cbn [fold_right map injection_patterns]; lia.
Qed.

Lemma security_deduction_mono (q1 q2 : string) :
  matches_superset q1 q2 = true ->
  (security_deduction q2 <= security_deduction q1)%Z.
Proof.
  unfold matches_superset, security_deduction.
  assert (Hpos : Forall (fun '(_, k) => (0 <= k)%Z) security_rules).
  { unfold security_rules. cbn [map injection_patterns app].
    repeat constructor; lia. }
  induction security_rules as [| [p k] rs IH]; simpl; intros H.
  - lia.
  - apply andb_true_iff in H. destruct H as [Himp Hrest].
    inversion Hpos as [| ? ? Hk Hrs]; subst.
    specialize (IH Hrs Hrest).
    destruct (Re.search p (Py.upper q2)); destruct (Re.search p (Py.upper q1));
      simpl in Himp; try discriminate; lia.
Qed.

End FeedbackProps.

Section FeedbackClaims.
Import Feedback.

Lemma check_time_total_last_month (l : locals) :
  check_time (Py.lower "show me total sales last month") (Py.upper "SELECT name FROM products") l
  = (l, inl tt).
Proof. reflexivity. Qed.

Lemma semantic_chain_total_last_month (schema : string) :
  (check_intents (Py.lower "show me total sales last month")
     (Py.upper "SELECT name FROM products") ;;
   check_tables (Py.lower "show me total sales last month")
     (Py.upper "SELECT name FROM products") schema ;;
   check_time (Py.lower "show me total sales last month")
     (Py.upper "SELECT name FROM products"))
    {| score := 70; findings := [] |}
  = ({| score := 55 - 10 * Z.of_nat (length (filter (fun table =>
            Py.contains (Py.lower schema) table
            && negb (Py.contains (Py.upper "SELECT name FROM products") (Py.upper table)))
          (findall_words (Py.lower "show me total sales last month"))));
        findings := intent_issue "total" :: map table_issue (filter (fun table =>
            Py.contains (Py.lower schema) table
            && negb (Py.contains (Py.upper "SELECT name FROM products") (Py.upper table)))
          (findall_words (Py.lower "show me total sales last month"))) |}, inl tt).
Proof.
  destruct schema as [| c s].
  - vm_compute. reflexivity.
  - unfold bind at 1.
    replace (check_intents (Py.lower "show me total sales last month")
               (Py.upper "SELECT name FROM products") {| score := 70; findings := [] |})
      with ({| score := 55; findings := [intent_issue "total"] |}, @inl unit string tt)
      by (vm_compute; reflexivity).
    unfold bind, check_tables. cbn [Py.truthy when]. rewrite for_each_when_sub.
    rewrite check_time_total_last_month. cbn [score findings]. reflexivity.
Qed.

(** [_analyze_semantic_alignment] on a string query, when the three checks
    complete. *)
Lemma analyze_semantic_str (q nl schema : string) (l : locals) :
  Py.truthy nl = true ->
  (check_intents (Py.lower nl) (Py.upper q) ;;
   check_tables (Py.lower nl) (Py.upper q) schema ;;
   check_time (Py.lower nl) (Py.upper q)) {| score := 70; findings := [] |} = (l, inl tt) ->
  _analyze_semantic_alignment (PyStr q) nl schema
  = {| st_score := clamp100 (score l); st_items := findings l |}.
Proof.
  intros Hnl Hrun. unfold _analyze_semantic_alignment. rewrite Hnl. cbn [negb].
  assert (E : semantic_body (PyStr q) nl schema
              = (check_intents (Py.lower nl) (Py.upper q) ;;
                 check_tables (Py.lower nl) (Py.upper q) schema ;;
                 check_time (Py.lower nl) (Py.upper q))).
  { unfold semantic_body. rewrite py_method_str, bind_ret. reflexivity. }
  unfold run_locals, try_except. rewrite E, Hrun. reflexivity.
Qed.

Lemma clamp_55_le (n : nat) : (clamp100 (55 - 10 * Z.of_nat n) <= 55)%Z.
Proof. unfold clamp100. lia. Qed.

Lemma intent_total_not_time : intent_issue "total" <> time_issue.
Proof. discriminate. Qed.

Lemma table_not_time (x : string) : table_issue x <> time_issue.
Proof. discriminate. Qed.

(** C1 (code defect): with a parameter marker and no deduction, the security
    sub-score of [analyze_query_quality] is 110, outside [0,100]: the stage
    clamps only from below, while the semantic and performance stages clamp
    to [0,100]. *)
Theorem analyze_security_score_above_100 :
  security_score (fb_analysis (fst (analyze_query_quality false (fun _ => Opened None None)
    (fun _ _ => inl "") [] (PyStr "SELECT id FROM users WHERE id = @id") "" "" None)))
  = 110%Z
  /\ overall_score (fb_analysis (fst (analyze_query_quality false (fun _ => Opened None None)
       (fun _ _ => inl "") [] (PyStr "SELECT id FROM users WHERE id = @id") "" "" None)))
     = weighted_overall 100 70 80 110.
Proof. vm_compute. split; reflexivity. Qed.

(** C4 (code defect): for a [null] query the syntax stage's computation
    raises, and its handler sets the score to 0, where the other three
    stages' handlers set 50. *)
Lemma syntax_stage_exception_scores_zero :
  syntax_body PyNone {| score := 100; findings := [] |}
    = ({| score := 100; findings := [] |}, inr (attr_error "upper"))
  /\ st_score (_analyze_syntax PyNone) = 0%Z
  /\ st_score (_analyze_syntax PyNone) <> 50%Z.
Proof. split; [reflexivity | split; [reflexivity | vm_compute; discriminate]]. Qed.

(** Each stage catches an exception raised by its own
    computation and appends ["<Stage> analysis error: <message>"] to the
    findings gathered so far; the semantic, performance and security stages
    then score 50, the syntax stage 0.  [analyze_query_quality] reports every
    stage's own result. *)
Theorem stage_exception_handlers (sql_query : pyval) (nl schema : string) :
  (forall l e, syntax_body sql_query {| score := 100; findings := [] |} = (l, inr e) ->
     _analyze_syntax sql_query
     = {| st_score := 0; st_items := (findings l ++ [("Syntax analysis error: " ++ e)%string])%list |})
  /\ (forall l e, Py.truthy nl = true ->
        semantic_body sql_query nl schema {| score := 70; findings := [] |} = (l, inr e) ->
        _analyze_semantic_alignment sql_query nl schema
        = {| st_score := 50;
             st_items := (findings l ++ [("Semantic analysis error: " ++ e)%string])%list |})
  /\ (forall l e, performance_body sql_query {| score := 80; findings := [] |} = (l, inr e) ->
        _analyze_performance sql_query
        = {| st_score := 50;
             st_items := (findings l ++ [("Performance analysis error: " ++ e)%string])%list |})
  /\ (forall l e, security_body sql_query {| score := 100; findings := [] |} = (l, inr e) ->
        _analyze_security sql_query
        = {| st_score := 50;
             st_items := (findings l ++ [("Security analysis error: " ++ e)%string])%list |})
  /\ (forall PY connect execute hist ci,
        let fb := fst (analyze_query_quality PY connect execute hist sql_query schema nl ci) in
        syntax_issues fb = st_items (_analyze_syntax sql_query)
        /\ semantic_score (fb_analysis fb)
           = st_score (_analyze_semantic_alignment sql_query nl schema)
        /\ semantic_issues fb = st_items (_analyze_semantic_alignment sql_query nl schema)
        /\ performance_score (fb_analysis fb) = st_score (_analyze_performance sql_query)
        /\ performance_suggestions fb = st_items (_analyze_performance sql_query)
        /\ security_score (fb_analysis fb) = st_score (_analyze_security sql_query)
        /\ security_warnings fb = st_items (_analyze_security sql_query)).
Proof.
  split; [| split; [| split; [| split]]].
  - intros l e H. unfold _analyze_syntax, run_locals, try_except. rewrite H. reflexivity.
  - intros l e Hnl H. unfold _analyze_semantic_alignment. rewrite Hnl. cbn [negb].
    unfold run_locals, try_except. rewrite H. reflexivity.
  - intros l e H. unfold _analyze_performance, run_locals, try_except. rewrite H.
    reflexivity.
  - intros l e H. unfold _analyze_security, run_locals, try_except. rewrite H.
    reflexivity.
  - intros PY connect execute hist ci. cbv zeta. unfold analyze_query_quality.
    destruct (dict_truthy ci);
      [destruct (exec_success (fst (_test_query_execution PY connect execute sql_query ci)))
      |]; repeat split.
Qed.

(** C5, counterexample: for "show me total sales last month" against
    "SELECT name FROM products" (no schema context) the only issue is the
    missing aggregate: "last month" is not one of the time indicators. *)
Lemma semantic_last_month_not_time_indicator :
  _analyze_semantic_alignment (PyStr "SELECT name FROM products")
    "show me total sales last month" ""
  = {| st_score := 55; st_items := [intent_issue "total"] |}
  /\ ~ In time_issue (st_items (_analyze_semantic_alignment (PyStr "SELECT name FROM products")
                                 "show me total sales last month" "")).
Proof.
  assert (E : _analyze_semantic_alignment (PyStr "SELECT name FROM products")
                "show me total sales last month" ""
              = {| st_score := 55; st_items := [intent_issue "total"] |})
    by (vm_compute; reflexivity).
  split; [exact E |]. rewrite E. intros [H | []]. exact (intent_total_not_time H).
Qed.

(** C5, amended: whatever the schema context, the semantic issues of
    "show me total sales last month" against "SELECT name FROM products"
    flag the missing aggregate for 'total', contain no date-filter issue,
    and the semantic score is at most 55 (below 70). *)
Theorem semantic_total_sales_last_month (schema_context : string) :
  In (intent_issue "total")
     (st_items (_analyze_semantic_alignment (PyStr "SELECT name FROM products")
                  "show me total sales last month" schema_context))
  /\ ~ In time_issue
       (st_items (_analyze_semantic_alignment (PyStr "SELECT name FROM products")
                    "show me total sales last month" schema_context))
  /\ (st_score (_analyze_semantic_alignment (PyStr "SELECT name FROM products")
                  "show me total sales last month" schema_context) <= 55)%Z.
Proof.
  rewrite (analyze_semantic_str "SELECT name FROM products" "show me total sales last month"
             schema_context _ eq_refl (semantic_chain_total_last_month schema_context)).
  split; [| split].
  - apply in_eq.
  - intros H. apply in_inv in H. destruct H as [H | H].
    + exact (intent_total_not_time H).
    + apply in_map_iff in H. destruct H as [x [H _]]. exact (table_not_time x H).
  - apply clamp_55_le.
Qed.

(** C6: with the same parameter-marker status, a query that matches every
    rule of the security table that another query matches (and possibly
    more) has a security score no greater than the other's. *)
Theorem security_score_monotone (q1 q2 : string) :
  has_parameter_marker q1 = has_parameter_marker q2 ->
  matches_superset q1 q2 = true ->
  (st_score (_analyze_security (PyStr q1)) <= st_score (_analyze_security (PyStr q2)))%Z.
Proof.
  intros Hp Hs. rewrite !security_score_str, Hp.
  pose proof (security_deduction_mono q1 q2 Hs). lia.
Qed.

Lemma security_score_monotone_witness :
  has_parameter_marker "SELECT 1 UNION SELECT 2; DROP TABLE x"
    = has_parameter_marker "SELECT 1 UNION SELECT 2"
  /\ matches_superset "SELECT 1 UNION SELECT 2; DROP TABLE x" "SELECT 1 UNION SELECT 2" = true
  /\ (st_score (_analyze_security (PyStr "SELECT 1 UNION SELECT 2; DROP TABLE x"))
      <= st_score (_analyze_security (PyStr "SELECT 1 UNION SELECT 2")))%Z.
Proof.
  split; [vm_compute; reflexivity | split; [vm_compute; reflexivity |]].
  apply security_score_monotone; vm_compute; reflexivity.
Defined.

End FeedbackClaims.

Section ExecutionClaims.
Import Feedback.

(** C7: with a non-empty connection dict, [analyze_query_quality] always
    reports the execution result.  When it failed, [correctness_issues] is
    the single entry "Query execution failed: " followed by the database
    error, and the syntax sub-score is the stage's score minus 30, floored
    at 0; when it succeeded, the syntax sub-score is the stage's score plus
    20, capped at 100.  The other sub-scores and the overall score are those
    of the stages. *)
Theorem analyze_execution_adjusts_syntax (PY : bool) (connect : string -> connection)
  (execute : string -> string -> string + (nat * list string * Q))
  (hist : list feedback) (sql_query : pyval) (schema nl : string) (ci : option dict) :
  dict_truthy ci = true ->
  let fb := fst (analyze_query_quality PY connect execute hist sql_query schema nl ci) in
  let r := fst (_test_query_execution PY connect execute sql_query ci) in
  let pre := st_score (_analyze_syntax sql_query) in
  execution_results fb = Some r
  /\ (forall e, r = ExecFailed e ->
        exec_success r = false
        /\ correctness_issues fb = [("Query execution failed: " ++ e)%string]
        /\ syntax_score (fb_analysis fb) = Z.max 0 (pre - 30))
  /\ (exec_success r = true ->
        syntax_score (fb_analysis fb) = Z.min 100 (pre + 20)
        /\ correctness_issues fb = [])
  /\ semantic_score (fb_analysis fb) = st_score (_analyze_semantic_alignment sql_query nl schema)
  /\ performance_score (fb_analysis fb) = st_score (_analyze_performance sql_query)
  /\ security_score (fb_analysis fb) = st_score (_analyze_security sql_query)
  /\ overall_score (fb_analysis fb)
     = weighted_overall (syntax_score (fb_analysis fb))
         (semantic_score (fb_analysis fb)) (performance_score (fb_analysis fb))
         (security_score (fb_analysis fb)).
Proof.
  intros Hci. cbv zeta. unfold analyze_query_quality. rewrite Hci.
  destruct (fst (_test_query_execution PY connect execute sql_query ci)) as [e0 | t n c].
  - cbn [exec_success negb]. split; [reflexivity |].
    split; [| split; [intros H; discriminate H | repeat split]].
    intros e H. injection H as <-. repeat split.
  - cbn [exec_success negb]. split; [reflexivity |].
    split; [intros e H; discriminate H | repeat split].
Qed.

Lemma analyze_execution_adjusts_syntax_witness :
  dict_truthy (Some [("host", "db")]) = true
  /\ correctness_issues (fst (analyze_query_quality true (fun _ => Opened None None)
       (fun _ _ => inl "Invalid column name 'foo'") [] (PyStr "SELECT foo FROM t") "" ""
       (Some [("host", "db")])))
     = ["Query execution failed: Invalid column name 'foo'"].
Proof.
  split; [reflexivity |].
  destruct (analyze_execution_adjusts_syntax true (fun _ => Opened None None)
              (fun _ _ => inl "Invalid column name 'foo'") [] (PyStr "SELECT foo FROM t")
              "" "" (Some [("host", "db")]) eq_refl) as [_ [Hf _]].
  apply (Hf "Invalid column name 'foo'"). reflexivity.
Defined.

(** C10, counterexample: a [DROP] statement with pyodbc available and a
    non-empty connection dict whose connection attempt fails is answered with
    the driver's error, not with the SELECT-only error. *)
Lemma test_query_execution_connect_error_first :
  _test_query_execution true (fun _ => ConnectRaises "Login timeout expired") (fun _ _ => inl "")
    (PyStr "DROP TABLE users") (Some [("host", "db")])
  = (ExecFailed "Login timeout expired", [])
  /\ ExecFailed "Login timeout expired" <> ExecFailed only_select_error.
Proof.
  split; [reflexivity |]. intros H. injection H as H. discriminate H.
Qed.

(** C10, amended: a statement is sent to the database only when the query
    is a string whose stripped, uppercased text starts with SELECT, and the
    statement sent is the query with its first (case-sensitive) "SELECT"
    replaced by "SELECT TOP 100" when its uppercased text contains neither
    LIMIT nor TOP, the query itself otherwise.  Any other string query is not
    executed and fails, with an error the connection checks decide, as they
    come first: "Database connection not available" when pyodbc is missing or
    the connection dict is empty or null; the exception's text when
    connecting, entering the connection's [with] block or creating the
    cursor raises; and, once the connection is open, the SELECT-only error,
    unless the commit run on leaving the block raises, which gives the
    commit's exception text. *)
Theorem test_query_execution_select_gate (PY : bool) (connect : string -> connection)
  (execute : string -> string -> string + (nat * list string * Q))
  (sql_query : pyval) (ci : option dict) :
  let res := _test_query_execution PY connect execute sql_query ci in
  (forall sent, In sent (snd res) ->
     exists q, sql_query = PyStr q
       /\ Py.startswith (Py.upper (Py.strip q)) "SELECT" = true
       /\ sent = (if negb (Py.contains (Py.upper q) "LIMIT")
                     && negb (Py.contains (Py.upper q) "TOP")
                  then Py.replace_first "SELECT" "SELECT TOP 100" q else q))
  /\ (forall q, sql_query = PyStr q ->
        Py.startswith (Py.upper (Py.strip q)) "SELECT" = false ->
        snd res = [] /\ exec_success (fst res) = false
        /\ (PY = false \/ dict_truthy ci = false -> fst res = ExecFailed no_connection_error)
        /\ (forall d, ci = Some d -> PY = true -> dict_truthy ci = true ->
              match connect (build_conn_str d) with
              | ConnectRaises e => fst res = ExecFailed e
              | Opened None _ => fst res = ExecFailed only_select_error
              | Opened (Some e) _ => fst res = ExecFailed e
              end)).
Proof.
  cbv zeta. unfold _test_query_execution. cbv zeta. split.
  - intros sent Hin.
    destruct ci as [d |]; [| destruct Hin].
    destruct (negb PY || negb (dict_truthy (Some d))); [destruct Hin |].
    destruct (connect (build_conn_str d)) as [e | cm rb]; [destruct Hin |].
    destruct sql_query as [q |]; [| destruct rb; destruct Hin].
    exists q. split; [reflexivity |].
    destruct (Py.startswith (Py.upper (Py.strip q)) "SELECT") eqn:Hs; cbn [negb] in Hin;
      [| destruct cm; destruct Hin].
    split; [reflexivity |].
    destruct (execute (build_conn_str d) _) as [e | [[rows cols] el]];
      [destruct rb | destruct cm]; destruct Hin as [<- | []]; reflexivity.
  - intros q -> Hs. rewrite Hs. cbn [negb].
    destruct ci as [d |].
    + destruct (negb PY || negb (dict_truthy (Some d))) eqn:Hg.
      * refine (conj eq_refl (conj eq_refl (conj (fun _ => eq_refl) _))).
        intros d' Hd' HP Ht. injection Hd' as <-.
        rewrite HP, Ht in Hg. discriminate Hg.
      * assert (HPT : PY = true /\ dict_truthy (Some d) = true)
          by (destruct PY, (dict_truthy (Some d)); split; try reflexivity; discriminate Hg).
        destruct HPT as [HP HT].
        assert (Hno : ~ (PY = false \/ dict_truthy (Some d) = false))
          by (rewrite HP, HT; intros [H | H]; discriminate H).
        destruct (connect (build_conn_str d)) as [e | [e |] rb] eqn:Hc;
          (split; [reflexivity | split; [reflexivity | split;
             [intros H; destruct (Hno H) | intros d' Hd' _ _; injection Hd' as <-; rewrite Hc; reflexivity]]]).
    + refine (conj eq_refl (conj eq_refl (conj (fun _ => eq_refl) _))).
      intros d' Hd'. discriminate Hd'.
Qed.

End ExecutionClaims.

(* The rejection of "DROP TABLE users". *)
Lemma validate_rejects_not_read_only_witness :
  Validator.is_read_only_query "DROP TABLE users" = false
  /\ length (Validator.errors (Validator.validate_and_optimize
       (fun _ => Validator.ParseEmpty) (fun _ => None) (fun _ => [])
       (fun _ _ => []) (fun _ => []) "DROP TABLE users")) = 1%nat.
Proof.
  split; [reflexivity |].
  destruct (validate_rejects_not_read_only (fun _ => Validator.ParseEmpty) (fun _ => None)
              (fun _ => []) (fun _ _ => []) (fun _ => []) "DROP TABLE users" eq_refl)
    as [_ [H _]].
  exact H.
Defined.

(** * Further properties of the code *)

Section StringFacts.

Lemma str_app_assoc (a b c : string) : (a ++ b) ++ c = a ++ (b ++ c).
Proof. induction a as [| x a IH]; simpl; [reflexivity | now rewrite IH]. Qed.

Lemma str_app_nil (a : string) : a ++ "" = a.
Proof. induction a as [| x a IH]; simpl; [reflexivity | now rewrite IH]. Qed.

Lemma rev_string_app (a b : string) :
  Py.rev_string (a ++ b) = Py.rev_string b ++ Py.rev_string a.
Proof.
  induction a as [| x a IH]; simpl.
  - now rewrite str_app_nil.
  - rewrite IH. apply str_app_assoc.
Qed.

Lemma rev_string_involutive (a : string) : Py.rev_string (Py.rev_string a) = a.
Proof.
  induction a as [| x a IH]; simpl; [reflexivity |].
  rewrite rev_string_app, IH. reflexivity.
Qed.

Lemma lstrip_snoc (a : string) (c : ascii) :
  Py.is_space c = false -> Py.lstrip (a ++ String c "") = Py.lstrip a ++ String c "".
Proof.
  intros Hc. induction a as [| x a IH]; simpl.
  - now rewrite Hc.
  - destruct (Py.is_space x); [exact IH | reflexivity].
Qed.

Lemma rstrip_cons (c : ascii) (x : string) :
  Py.is_space c = false -> Py.rstrip (String c x) = String c (Py.rstrip x).
Proof.
  intros Hc. unfold Py.rstrip. simpl. rewrite lstrip_snoc by exact Hc.
  rewrite rev_string_app. reflexivity.
Qed.

Lemma strip_cons (c : ascii) (x : string) :
  Py.is_space c = false -> Py.strip (String c x) = String c (Py.rstrip x).
Proof. intros Hc. unfold Py.strip. simpl. rewrite Hc. now apply rstrip_cons. Qed.

Lemma rstrip_snoc (y : string) (c : ascii) :
  Py.is_space c = false -> Py.rstrip (y ++ String c "") = y ++ String c "".
Proof.
  intros Hc. unfold Py.rstrip. rewrite rev_string_app. simpl. rewrite Hc.
  change (String c (Py.rev_string y)) with (String c "" ++ Py.rev_string y).
  rewrite rev_string_app, rev_string_involutive. reflexivity.
Qed.

Lemma strip_snoc (y : string) (c : ascii) :
  Py.is_space c = false ->
  Py.strip (y ++ String c "") = Py.lstrip y ++ String c "".
Proof.
  intros Hc. unfold Py.strip. rewrite lstrip_snoc by exact Hc. now apply rstrip_snoc.
Qed.

Lemma endswith_snoc (y : string) (c : ascii) :
  Py.endswith (y ++ String c "") (String c "") = true.
Proof.
  unfold Py.endswith. rewrite rev_string_app. simpl.
  destruct (ascii_dec c c) as [_ | n]; [now destruct (Py.rev_string y) | now destruct n].
Qed.

Lemma prefix_app (p x : string) : String.prefix p (p ++ x) = true.
Proof.
  induction p as [| c p IH]; simpl; [now destruct x |].
  destruct (ascii_dec c c) as [_ | n]; [exact IH | now destruct n].
Qed.

Lemma upper_app (a b : string) : Py.upper (a ++ b) = Py.upper a ++ Py.upper b.
Proof. unfold Py.upper. induction a as [| c a IH]; simpl; [reflexivity | now rewrite IH]. Qed.

End StringFacts.

Section ReadOnlyFacts.

(** Characters the comment filters and [strip] pass through unchanged. *)
Definition plain_char (c : ascii) : bool :=
  negb (Py.is_space c) && negb (Ascii.eqb c "-"%char) && negb (Ascii.eqb c "/"%char).

Lemma prefix_neq (a b : ascii) (s1 s2 : string) :
  Ascii.eqb b a = false -> String.prefix (String a s1) (String b s2) = false.
Proof.
  intros H. simpl. destruct (ascii_dec a b) as [-> | _]; [| reflexivity].
  now rewrite Ascii.eqb_refl in H.
Qed.

Lemma sub_line_cons (c : ascii) (x : string) :
  Ascii.eqb c "-"%char = false ->
  Validator.sub_line_comments (String c x) = String c (Validator.sub_line_comments x).
Proof.
  intros H. unfold Validator.sub_line_comments. simpl String.length.
  cbn [Validator.sub_line_comments_fuel]. rewrite prefix_neq by exact H. reflexivity.
Qed.

Lemma sub_block_cons (c : ascii) (x : string) :
  Ascii.eqb c "/"%char = false ->
  Validator.sub_block_comments (String c x) = String c (Validator.sub_block_comments x).
Proof.
  intros H. unfold Validator.sub_block_comments. simpl String.length.
  cbn [Validator.sub_block_comments_fuel]. rewrite prefix_neq by exact H. reflexivity.
Qed.

Lemma plain_prefix (p x : string) :
  forallb plain_char (list_ascii_of_string p) = true ->
  Py.rstrip (p ++ x) = p ++ Py.rstrip x
  /\ Validator.sub_line_comments (p ++ x) = p ++ Validator.sub_line_comments x
  /\ Validator.sub_block_comments (p ++ x) = p ++ Validator.sub_block_comments x.
Proof.
  induction p as [| c p IH]; simpl; [auto |].
  intros H. apply andb_prop in H as [Hc Hp]. unfold plain_char in Hc.
  apply andb_prop in Hc as [Hc Hs]. apply andb_prop in Hc as [Hsp Hd].
  rewrite negb_true_iff in Hsp, Hd, Hs.
  destruct (IH Hp) as [E1 [E2 E3]].
  rewrite rstrip_cons, sub_line_cons, sub_block_cons, E1, E2, E3 by assumption.
  auto.
Qed.

Lemma read_only_prefix (c : ascii) (p rest : string) :
  forallb plain_char (list_ascii_of_string (String c p)) = true ->
  Py.upper (String c p) = String c p ->
  exists w, Py.strip (Validator.sub_block_comments (Validator.sub_line_comments
              (Py.strip (Py.upper (String c p ++ rest))))) = String c p ++ w.
Proof.
  intros Hp Hu.
  pose proof Hp as Hall.
  cbn [list_ascii_of_string forallb] in Hp. apply andb_prop in Hp as [Hc Hp].
  assert (Hsp : Py.is_space c = false).
  { unfold plain_char in Hc. destruct (Py.is_space c); [discriminate Hc | reflexivity]. }
  rewrite upper_app, Hu.
  change (String c p ++ Py.upper rest) with (String c (p ++ Py.upper rest)).
  rewrite strip_cons by exact Hsp.
  rewrite (proj1 (plain_prefix p (Py.upper rest) Hp)).
  change (String c (p ++ Py.rstrip (Py.upper rest)))
    with (String c p ++ Py.rstrip (Py.upper rest)).
  destruct (plain_prefix (String c p) (Py.rstrip (Py.upper rest)) Hall) as [_ [E2 _]].
  rewrite E2.
  destruct (plain_prefix (String c p)
              (Validator.sub_line_comments (Py.rstrip (Py.upper rest))) Hall) as [_ [_ E3]].
  rewrite E3. simpl. rewrite strip_cons by exact Hsp.
  rewrite (proj1 (plain_prefix p _ Hp)). eexists. reflexivity.
Qed.

Lemma read_only_select_with (rest : string) :
  Validator.is_read_only_query ("SELECT" ++ rest) = true
  /\ Validator.is_read_only_query ("WITH" ++ rest) = true.
Proof.
  unfold Validator.is_read_only_query, Py.startswith. split.
  - destruct (read_only_prefix "S"%char "ELECT" rest eq_refl eq_refl) as [w E].
    rewrite E. rewrite prefix_app. reflexivity.
  - destruct (read_only_prefix "W"%char "ITH" rest eq_refl eq_refl) as [w E].
    rewrite E. rewrite prefix_app. apply orb_true_r.
Qed.

End ReadOnlyFacts.

Section ValidatorExtras.

Lemma char_upper_lower (c : ascii) : Py.char_upper (Py.char_lower c) = Py.char_upper c.
Proof. destruct c as [[] [] [] [] [] [] [] []]; reflexivity. Qed.

Lemma char_upper_upper (c : ascii) : Py.char_upper (Py.char_upper c) = Py.char_upper c.
Proof. destruct c as [[] [] [] [] [] [] [] []]; reflexivity. Qed.

Lemma upper_lower (s : string) : Py.upper (Py.lower s) = Py.upper s.
Proof.
  unfold Py.upper, Py.lower. induction s as [| c s IH]; simpl; [reflexivity |].
  now rewrite IH, char_upper_lower.
Qed.

Lemma upper_upper (s : string) : Py.upper (Py.upper s) = Py.upper s.
Proof.
  unfold Py.upper. induction s as [| c s IH]; simpl; [reflexivity |].
  now rewrite IH, char_upper_upper.
Qed.

(** [is_read_only_query] ignores letter case: lower-casing or upper-casing
    the query does not change its answer. *)
Theorem read_only_case_insensitive (sql_query : string) :
  Validator.is_read_only_query (Py.lower sql_query) = Validator.is_read_only_query sql_query
  /\ Validator.is_read_only_query (Py.upper sql_query) = Validator.is_read_only_query sql_query.
Proof.
  unfold Validator.is_read_only_query. rewrite upper_lower, upper_upper. split; reflexivity.
Qed.

Lemma contains_of_prefix (s p : string) : String.prefix p s = true -> Py.contains s p = true.
Proof. intros H. destruct s; cbn [Py.contains]; rewrite H; reflexivity. Qed.

Lemma contains_app_l (p x : string) : Py.contains (p ++ x) p = true.
Proof. apply contains_of_prefix, prefix_app. Qed.

Lemma validate_syntax_select_prefix (rest : string) (st : Validator.statement) :
  Validator.stmt_ttype_is_whitespace st = false ->
  Py.count_char "("%char rest = Py.count_char ")"%char rest ->
  Nat.modulo (Py.count_char "'"%char rest) 2 = 0%nat ->
  Validator._validate_syntax ("SELECT" ++ rest) st = [].
Proof.
  intros Hws Hp Hq. unfold Validator._validate_syntax.
  change (Py.count_char "("%char ("SELECT" ++ rest)) with (Py.count_char "("%char rest).
  change (Py.count_char ")"%char ("SELECT" ++ rest)) with (Py.count_char ")"%char rest).
  change (Py.count_char "'"%char ("SELECT" ++ rest)) with (Py.count_char "'"%char rest).
  rewrite Hp, Hq, Hws, !Nat.eqb_refl. unfold Validator.statement_keywords.
  cbn [existsb]. rewrite upper_app.
  change (Py.upper "SELECT") with "SELECT". rewrite contains_app_l. reflexivity.
Qed.

(** [validate_and_optimize] accepts, with no error, any query that is
    SELECT followed by text with balanced parentheses and an even number of
    single quotes, once sqlparse returns a first statement that is not
    whitespace; the security, performance and dialect findings play no part. *)
Theorem validate_accepts_select_prefix
  (parse : string -> Validator.parse_outcome) (fmt : string -> option string)
  (sec : string -> list string) (perf : string -> Validator.statement -> list string)
  (dialect : string -> list string) (rest : string) (st : Validator.statement) :
  parse ("SELECT" ++ rest) = Validator.ParseFirst st ->
  Validator.stmt_ttype_is_whitespace st = false ->
  Py.count_char "("%char rest = Py.count_char ")"%char rest ->
  Nat.modulo (Py.count_char "'"%char rest) 2 = 0%nat ->
  Validator.is_valid (Validator.validate_and_optimize parse fmt sec perf dialect ("SELECT" ++ rest))
    = true
  /\ Validator.errors (Validator.validate_and_optimize parse fmt sec perf dialect ("SELECT" ++ rest))
     = [].
Proof.
  intros Hparse Hws Hp Hq. unfold Validator.validate_and_optimize.
  assert (Ht : negb (Py.truthy ("SELECT" ++ rest))
                || negb (Py.truthy (Py.strip ("SELECT" ++ rest))) = false).
  { change ("SELECT" ++ rest) with (String "S" ("ELECT" ++ rest)).
    rewrite strip_cons by reflexivity. reflexivity. }
  rewrite Ht.
  rewrite (proj1 (read_only_select_with rest)), Hparse. cbn [negb].
  rewrite validate_syntax_select_prefix by assumption. split; reflexivity.
Qed.

Lemma validate_accepts_select_prefix_witness :
  let q := " 1; DROP TABLE users" in
  Validator.is_valid (Validator.validate_and_optimize
    (fun _ => Validator.ParseFirst {| Validator.stmt_ttype_is_whitespace := false |})
    (fun _ => None) (fun _ => []) (fun _ _ => []) (fun _ => []) ("SELECT" ++ q)) = true.
Proof.
  cbv zeta.
  apply (validate_accepts_select_prefix
           (fun _ => Validator.ParseFirst {| Validator.stmt_ttype_is_whitespace := false |})
           (fun _ => None) (fun _ => []) (fun _ _ => []) (fun _ => []) " 1; DROP TABLE users"
           {| Validator.stmt_ttype_is_whitespace := false |});
    reflexivity.
Defined.

(** [validate_and_optimize] marks a query invalid exactly when it reports an
    error; an invalid query keeps the input as [optimized_sql]; a blank
    query gets the single error "SQL query is empty" and empty lists. *)
Theorem validate_rejection_keeps_input
  (parse : string -> Validator.parse_outcome) (fmt : string -> option string)
  (sec : string -> list string) (perf : string -> Validator.statement -> list string)
  (dialect : string -> list string) (sql_query : string) :
  let v := Validator.validate_and_optimize parse fmt sec perf dialect sql_query in
  (Validator.is_valid v = false <-> Validator.errors v <> [])
  /\ (Validator.is_valid v = false -> Validator.optimized_sql v = sql_query)
  /\ (Py.strip sql_query = "" -> v = Validator.rejected sql_query Validator.err_empty).
Proof.
  cbv zeta. unfold Validator.validate_and_optimize.
  split; [| split].
  - destruct (negb (Py.truthy sql_query) || negb (Py.truthy (Py.strip sql_query))).
    { simpl. split; [intros _; discriminate | reflexivity]. }
    destruct (negb (Validator.is_read_only_query sql_query)).
    { simpl. split; [intros _; discriminate | reflexivity]. }
    destruct (parse sql_query) as [m | | st]; simpl;
      try (split; [intros _; discriminate | reflexivity]).
    destruct (Validator._validate_syntax sql_query st); simpl;
      split; try discriminate; try congruence; intros; reflexivity.
  - destruct (negb (Py.truthy sql_query) || negb (Py.truthy (Py.strip sql_query)));
      [reflexivity |].
    destruct (negb (Validator.is_read_only_query sql_query)); [reflexivity |].
    destruct (parse sql_query) as [m | | st]; try reflexivity.
    destruct (Validator._validate_syntax sql_query st); simpl;
      [intros H; discriminate H | reflexivity].
  - intros H. rewrite H, orb_true_r. reflexivity.
Qed.

(** For a valid query, when [sqlparse.format] succeeds the optimized SQL ends
    in a semicolon (after stripping); when it raises, the optimized SQL is the
    input unchanged. *)
Theorem validate_optimized_sql_terminated
  (parse : string -> Validator.parse_outcome) (fmt : string -> option string)
  (sec : string -> list string) (perf : string -> Validator.statement -> list string)
  (dialect : string -> list string) (sql_query : string) :
  Validator.is_valid (Validator.validate_and_optimize parse fmt sec perf dialect sql_query)
    = true ->
  (forall formatted, fmt sql_query = Some formatted ->
     Py.endswith (Py.strip (Validator.optimized_sql
       (Validator.validate_and_optimize parse fmt sec perf dialect sql_query))) ";" = true)
  /\ (fmt sql_query = None ->
      Validator.optimized_sql (Validator.validate_and_optimize parse fmt sec perf dialect sql_query)
      = sql_query).
Proof.
  unfold Validator.validate_and_optimize.
  destruct (negb (Py.truthy sql_query) || negb (Py.truthy (Py.strip sql_query)));
    [intros H; discriminate H |].
  destruct (negb (Validator.is_read_only_query sql_query)); [intros H; discriminate H |].
  destruct (parse sql_query) as [m | | st]; try (intros H; discriminate H).
  destruct (Validator._validate_syntax sql_query st); [| intros H; discriminate H].
  intros _. cbn [Validator.optimized_sql]. unfold Validator._optimize_query. split.
  - intros f Hf. rewrite Hf.
    destruct (Py.endswith (Py.strip f) ";") eqn:E; [exact E |].
    rewrite strip_snoc by reflexivity. apply endswith_snoc.
  - intros Hn. rewrite Hn. reflexivity.
Qed.

Lemma validate_optimized_sql_terminated_witness :
  Validator.is_valid (Validator.validate_and_optimize
    (fun _ => Validator.ParseFirst {| Validator.stmt_ttype_is_whitespace := false |})
    (fun s => Some s) (fun _ => []) (fun _ _ => []) (fun _ => []) "SELECT id FROM t") = true
  /\ Py.endswith (Py.strip (Validator.optimized_sql (Validator.validate_and_optimize
    (fun _ => Validator.ParseFirst {| Validator.stmt_ttype_is_whitespace := false |})
    (fun s => Some s) (fun _ => []) (fun _ _ => []) (fun _ => []) "SELECT id FROM t"))) ";"
     = true.
Proof.
  split; [vm_compute; reflexivity |].
  apply (proj1 (validate_optimized_sql_terminated
    (fun _ => Validator.ParseFirst {| Validator.stmt_ttype_is_whitespace := false |})
    (fun s => Some s) (fun _ => []) (fun _ _ => []) (fun _ => []) "SELECT id FROM t"
    ltac:(vm_compute; reflexivity)) "SELECT id FROM t" eq_refl).
Defined.

End ValidatorExtras.

Section ReadOnlyGate.

Lemma read_only_upper (q : string) :
  Validator.is_read_only_query (Py.upper q) = Validator.is_read_only_query q.
Proof. unfold Validator.is_read_only_query. now rewrite upper_upper. Qed.

(** [is_read_only_query] accepts every text that starts with SELECT or WITH,
    in upper or lower case, whatever follows: the gate tests only the first
    word, so a second statement after a semicolon is not seen. *)
Theorem read_only_accepts_any_suffix (rest : string) :
  Validator.is_read_only_query ("SELECT" ++ rest) = true
  /\ Validator.is_read_only_query ("WITH" ++ rest) = true
  /\ Validator.is_read_only_query ("select" ++ rest) = true
  /\ Validator.is_read_only_query ("with" ++ rest) = true.
Proof.
  destruct (read_only_select_with rest) as [Hs Hw].
  split; [exact Hs | split; [exact Hw |]].
  rewrite <- (read_only_upper ("select" ++ rest)), <- (read_only_upper ("with" ++ rest)),
    !upper_app.
  exact (conj (proj1 (read_only_select_with (Py.upper rest)))
              (proj2 (read_only_select_with (Py.upper rest)))).
Qed.

End ReadOnlyGate.

Section SecurityExtras.
Import Validator.



(** The findings of [_validate_security] never make [validate_and_optimize]
    reject a query: validity, errors and optimized SQL are those of a run
    with no security check, and a valid query carries the findings in
    [security_issues]. *)
Theorem security_issues_never_invalidate
  (parse : string -> parse_outcome) (fmt : string -> option string)
  (perf : string -> statement -> list string) (dialect : string -> list string)
  (sql_query : string) :
  let v := validate_and_optimize parse fmt Validator._validate_security perf dialect sql_query in
  let v0 := validate_and_optimize parse fmt (fun _ => []) perf dialect sql_query in
  is_valid v = is_valid v0 /\ errors v = errors v0 /\ optimized_sql v = optimized_sql v0
  /\ (is_valid v = true -> security_issues v = Validator._validate_security sql_query).
Proof.
  cbv zeta. unfold validate_and_optimize.
  destruct (negb (Py.truthy sql_query) || negb (Py.truthy (Py.strip sql_query)));
    [repeat split; discriminate |].
  destruct (negb (is_read_only_query sql_query)); [repeat split; discriminate |].
  destruct (parse sql_query); [repeat split; discriminate .. |].
  repeat split.
Qed.

Definition drop_after_select : string := "SELECT 1; DROP TABLE users".

Lemma security_issues_never_invalidate_witness :
  let v := validate_and_optimize
             (fun _ => ParseFirst {| stmt_ttype_is_whitespace := false |})
             (fun _ => None) Validator._validate_security (fun _ _ => []) (fun _ => [])
             drop_after_select in
  is_valid v = true
  /\ security_issues v
     = ["Potential SQL injection pattern detected: (;\s*(drop|delete|truncate|update|insert))"].
Proof.
  cbv zeta.
  assert (Hv : is_valid (validate_and_optimize
             (fun _ => ParseFirst {| stmt_ttype_is_whitespace := false |})
             (fun _ => None) Validator._validate_security (fun _ _ => []) (fun _ => [])
             drop_after_select) = true) by (vm_compute; reflexivity).
  split; [exact Hv |].
  rewrite (proj2 (proj2 (proj2 (security_issues_never_invalidate
             (fun _ => ParseFirst {| stmt_ttype_is_whitespace := false |})
             (fun _ => None) (fun _ _ => []) (fun _ => []) drop_after_select))) Hv).
  vm_compute. reflexivity.
Defined.

End SecurityExtras.

Section SqlServerExtras.
Import Validator.

Lemma contains_tail (s p : string) (c : ascii) :
  Py.contains s (String c p) = true -> Py.contains s p = true.
Proof.
  induction s as [| d s IH]; cbn [Py.contains]; [discriminate |].
  intros H. apply orb_true_iff. right.
  apply orb_true_iff in H as [H | H].
  - cbn [String.prefix] in H. destruct (ascii_dec c d); [| discriminate].
    now apply contains_of_prefix.
  - now apply IH.
Qed.

(** [_validate_sqlserver_specifics] reports the TEXT deprecation for every
    query whose lower-cased text contains [text] anywhere (a column named
    [context] included), and a query mentioning [ntext] gets both the TEXT
    and the NTEXT warnings. *)
Theorem sqlserver_deprecated_by_substring (sql_query : string) :
  (Py.contains (Py.lower sql_query) "text" = true ->
     In "TEXT data type is deprecated, use VARCHAR(MAX)" (Validator._validate_sqlserver_specifics sql_query))
  /\ (Py.contains (Py.lower sql_query) "ntext" = true ->
     In "TEXT data type is deprecated, use VARCHAR(MAX)" (Validator._validate_sqlserver_specifics sql_query)
     /\ In "NTEXT data type is deprecated, use NVARCHAR(MAX)"
          (Validator._validate_sqlserver_specifics sql_query)).
Proof.
  assert (Ht : Py.contains (Py.lower sql_query) "text" = true ->
     In "TEXT data type is deprecated, use VARCHAR(MAX)" (Validator._validate_sqlserver_specifics sql_query)).
  { intros H. unfold Validator._validate_sqlserver_specifics. cbv zeta.
    apply in_or_app. left. cbn [flat_map Validator.deprecated_features]. rewrite H. now left. }
  split; [exact Ht |].
  intros H. split; [apply Ht; exact (contains_tail _ _ _ H) |].
  unfold Validator._validate_sqlserver_specifics. cbv zeta.
  apply in_or_app. left. cbn [flat_map Validator.deprecated_features].
  apply in_or_app. right. rewrite H. now left.
Qed.

Lemma sqlserver_deprecated_by_substring_witness :
  Py.contains (Py.lower "SELECT context FROM notes") "text" = true
  /\ In "TEXT data type is deprecated, use VARCHAR(MAX)"
       (Validator._validate_sqlserver_specifics "SELECT context FROM notes").
Proof.
  assert (H : Py.contains (Py.lower "SELECT context FROM notes") "text" = true)
    by (vm_compute; reflexivity).
  split; [exact H |].
  exact (proj1 (sqlserver_deprecated_by_substring "SELECT context FROM notes") H).
Defined.

End SqlServerExtras.

Section TableNames.
Import Validator.

Lemma scan_tokens_raises (toks : list token) (tables : list string) :
  fst (scan_tokens toks tables) = tables.
Proof. destruct toks; reflexivity. Qed.

(** [_extract_tables_from_statement] always returns the empty list (the local
    list [tokens] hides the module of the same name, so the first token's
    test raises and the error is caught), and [extract_table_names] returns
    the empty list for every query. *)
Theorem extract_table_names_always_empty
  (sqlparse_parse_all : string -> option (list (list token)))
  (py_list_set : list string -> list string)
  (Hset : py_list_set [] = []) (sql_query : string) :
  (forall flat, _extract_tables_from_statement flat = [])
  /\ extract_table_names sqlparse_parse_all py_list_set sql_query = [].
Proof.
  assert (Hs : forall flat, _extract_tables_from_statement flat = [])
    by (intros flat; apply scan_tokens_raises).
  split; [exact Hs |].
  unfold extract_table_names. destruct (sqlparse_parse_all sql_query) as [parsed |]; [| reflexivity].
  replace (concat (map _extract_tables_from_statement parsed)) with (@nil string); [exact Hset |].
  induction parsed as [| p ps IH]; cbn; [reflexivity | now rewrite Hs, <- IH].
Qed.

Definition from_users : token :=
  {| tok_ttype := Some TKeyword; tok_value := "FROM"; tok_is_whitespace := false |}.

Lemma extract_table_names_always_empty_witness :
  extract_table_names (fun _ => Some [[from_users]]) (fun l => l) "SELECT * FROM users" = [].
Proof. apply (extract_table_names_always_empty _ (fun l => l) eq_refl). Defined.

End TableNames.

Section ScoreBounds.
Import Feedback.

(** [m] raises the score by at most [k], whether it returns or raises. *)
Definition gain {A} (k : Z) (m : M A) : Prop :=
  forall l, (score (fst (m l)) <= score l + k)%Z.

Lemma gain_ret {A} (k : Z) (a : A) : (0 <= k)%Z -> gain k (ret a).
Proof. intros Hk l. cbn. lia. Qed.

Lemma gain_sub (k n : Z) : (0 <= k)%Z -> (0 <= n)%Z -> gain k (sub_score n).
Proof. intros Hk Hn l. cbn. lia. Qed.

Lemma gain_add (n : Z) : gain n (add_score n).
Proof. intros l. cbn. lia. Qed.

Lemma gain_append (k : Z) (s : string) : (0 <= k)%Z -> gain k (append s).
Proof. intros Hk l. cbn. lia. Qed.

Lemma gain_bind {A B} (k1 k2 : Z) (m : M A) (f : A -> M B) :
  (0 <= k2)%Z -> gain k1 m -> (forall a, gain k2 (f a)) -> gain (k1 + k2) (bind m f).
Proof.
  intros Hk2 Hm Hf l. unfold bind. specialize (Hm l).
  destruct (m l) as [l' [a | e]] eqn:E; cbn in *.
  - specialize (Hf a l'). lia.
  - lia.
Qed.

Lemma gain_bind0 {A B} (k : Z) (m : M A) (f : A -> M B) :
  (0 <= k)%Z -> gain 0 m -> (forall a, gain k (f a)) -> gain k (bind m f).
Proof. intros Hk Hm Hf. replace k with (0 + k)%Z by lia. now apply gain_bind. Qed.

Lemma gain_when (k : Z) (b : bool) (m : M unit) :
  (0 <= k)%Z -> gain k m -> gain k (when b m).
Proof. intros Hk Hm. destruct b; [exact Hm | now apply gain_ret]. Qed.

Lemma gain_for_each {A} (xs : list A) (body : A -> M unit) :
  (forall x, gain 0 (body x)) -> gain 0 (for_each xs body).
Proof.
  intros Hb. induction xs as [| x xs IH]; cbn.
  - now apply gain_ret.
  - apply gain_bind0; [lia | apply Hb | intros _; exact IH].
Qed.

Lemma gain_py_method {A} (name : string) (f : string -> A) (v : pyval) :
  gain 0 (py_method name f v).
Proof. destruct v; intros l; cbn; lia. Qed.

Lemma gain_py_search (r : Re.regex) (v : pyval) : gain 0 (py_search r v).
Proof. destruct v; intros l; cbn; lia. Qed.

Ltac gain_step :=
  match goal with
  | |- gain _ (bind (py_method _ _ _) _) =>
      apply gain_bind0; [lia | apply gain_py_method | intro]
  | |- gain _ (bind (py_search _ _) _) =>
      apply gain_bind0; [lia | apply gain_py_search | intro]
  | |- gain _ (bind (for_each _ _) _) =>
      apply gain_bind0; [lia | apply gain_for_each; intros [? ?] | intros _]
  | |- gain _ (bind (sub_score _) _) =>
      apply gain_bind0; [lia | apply gain_sub; lia | intros _]
  | |- gain _ (bind (when _ _) _) =>
      apply gain_bind0; [lia | apply gain_when; [lia |] | intros _]
  | |- gain _ (when _ _) => apply gain_when; [lia |]
  | |- gain _ (sub_score _) => apply gain_sub; lia
  | |- gain _ (append _) => apply gain_append; lia
  | |- gain _ (ret _) => apply gain_ret; lia
  end.

Lemma syntax_body_gain (q : pyval) : gain 0 (syntax_body q).
Proof. unfold syntax_body. repeat gain_step. Qed.

Lemma security_body_gain (q : pyval) : gain 10 (security_body q).
Proof.
  unfold security_body. repeat gain_step.
  replace 10%Z with (10 + 0)%Z by lia.
  apply gain_bind; [lia | apply gain_add | intros _; apply gain_append; lia].
Qed.

Lemma handled_score (m : M unit) (k init n : Z) (tag : string) :
  gain k m ->
  let l := run_locals init (try_except m (fun e => set_score n ;; append (tag ++ e))) in
  score l = n \/ (score l <= init + k)%Z.
Proof.
  intros Hm. cbv zeta. unfold run_locals, try_except. specialize (Hm {| score := init; findings := [] |}).
  destruct (m {| score := init; findings := [] |}) as [l' [u | e]]; cbn in *.
  - right. exact Hm.
  - left. reflexivity.
Qed.

Lemma syntax_score_range (q : pyval) :
  (0 <= st_score (_analyze_syntax q) <= 100)%Z.
Proof.
  unfold _analyze_syntax. cbn [st_score].
  destruct (handled_score (syntax_body q) 0 100 0 "Syntax analysis error: " (syntax_body_gain q))
    as [E | E]; cbv zeta in E; lia.
Qed.

Lemma security_score_range (q : pyval) :
  (0 <= st_score (_analyze_security q) <= 110)%Z.
Proof.
  unfold _analyze_security. cbn [st_score].
  destruct (handled_score (security_body q) 10 100 50 "Security analysis error: "
              (security_body_gain q)) as [E | E]; cbv zeta in E; lia.
Qed.

Lemma clamp100_range (z : Z) : (0 <= clamp100 z <= 100)%Z.
Proof. unfold clamp100. lia. Qed.

Lemma semantic_score_range (q : pyval) (nl schema : string) :
  (0 <= st_score (_analyze_semantic_alignment q nl schema) <= 100)%Z.
Proof.
  unfold _analyze_semantic_alignment. destruct (negb (Py.truthy nl)).
  - cbn. lia.
  - apply clamp100_range.
Qed.

Lemma performance_score_range (q : pyval) :
  (0 <= st_score (_analyze_performance q) <= 100)%Z.
Proof. apply clamp100_range. Qed.

Lemma weighted_overall_range (syn sem perf sec : Z) :
  (0 <= syn <= 100)%Z -> (0 <= sem <= 100)%Z -> (0 <= perf <= 100)%Z -> (0 <= sec <= 110)%Z ->
  (0 <= weighted_overall syn sem perf sec <= 102)%Q.
Proof.
  intros H1 H2 H3 H4. unfold weighted_overall, Qle. cbn. split; lia.
Qed.

(** Whatever the query, the syntax, semantic and performance scores of
    [analyze_query_quality] lie in 0..100, the security score in 0..110 and
    the overall score in 0..102. *)
Theorem analyze_score_ranges (PY : bool) (connect : string -> connection)
  (execute : string -> string -> string + (nat * list string * Q))
  (hist : list feedback) (sql_query : pyval) (schema nl : string) (ci : option dict) :
  let a := fb_analysis (fst (analyze_query_quality PY connect execute hist sql_query schema nl ci)) in
  (0 <= syntax_score a <= 100)%Z
  /\ (0 <= semantic_score a <= 100)%Z
  /\ (0 <= performance_score a <= 100)%Z
  /\ (0 <= security_score a <= 110)%Z
  /\ (0 <= overall_score a <= 102)%Q.
Proof.
  cbv zeta. unfold analyze_query_quality.
  pose proof (syntax_score_range sql_query) as Hs.
  pose proof (semantic_score_range sql_query nl schema) as Hm.
  pose proof (performance_score_range sql_query) as Hp.
  pose proof (security_score_range sql_query) as Hc.
  assert (Hadj : forall syn, (0 <= syn <= 100)%Z ->
            let a := {| syntax_score := syn;
                        semantic_score := st_score (_analyze_semantic_alignment sql_query nl schema);
                        performance_score := st_score (_analyze_performance sql_query);
                        security_score := st_score (_analyze_security sql_query);
                        overall_score := weighted_overall syn
                          (st_score (_analyze_semantic_alignment sql_query nl schema))
                          (st_score (_analyze_performance sql_query))
                          (st_score (_analyze_security sql_query)) |} in
            (0 <= syntax_score a <= 100)%Z /\ (0 <= semantic_score a <= 100)%Z
            /\ (0 <= performance_score a <= 100)%Z /\ (0 <= security_score a <= 110)%Z
            /\ (0 <= overall_score a <= 102)%Q).
  { intros syn Hsyn. cbv zeta. cbn [syntax_score semantic_score performance_score security_score overall_score].
    refine (conj Hsyn (conj Hm (conj Hp (conj Hc _)))). now apply weighted_overall_range. }
  destruct (dict_truthy ci);
    [destruct (exec_success (fst (_test_query_execution PY connect execute sql_query ci))) |];
    apply Hadj; lia.
Qed.

End ScoreBounds.

Section SummaryWindow.
Import Feedback FeedbackStore.

(** The entries [feedback_history[-limit:]] selects. *)
Definition window {A} (h : list A) (limit : Z) : list A :=
  if (0 <? limit)%Z then skipn (length h - Z.to_nat limit) h
  else skipn (Z.to_nat (- limit)) h.

Lemma py_slice_window {A} (h : list A) (limit : Z) :
  py_slice_from (- limit) h = window h limit.
Proof.
  unfold py_slice_from, window.
  destruct (Z.ltb_spec 0 limit) as [Hl | Hl].
  - replace (- limit <? 0)%Z with true by (symmetry; apply Z.ltb_lt; lia).
    f_equal. lia.
  - replace (- limit <? 0)%Z with false by (symmetry; apply Z.ltb_ge; lia).
    destruct (Z.le_ge_cases (- limit) (Z.of_nat (length h))) as [Hc | Hc].
    + now rewrite Z.min_l by exact Hc.
    + rewrite Z.min_r by lia. rewrite Nat2Z.id, !skipn_all2; [reflexivity | |]; lia.
Qed.

Lemma window_nil {A} (limit : Z) : window (@nil A) limit = [].
Proof. unfold window. destruct (0 <? limit)%Z; apply skipn_nil. Qed.

Lemma summary_recent_window (h : list feedback) (limit : Z) :
  match get_feedback_summary h limit with
  | NoFeedback m => m = "No feedback data available" /\ window h limit = []
  | FeedbackSummary total _ _ recent =>
      recent = window h limit /\ recent <> [] /\ total = length recent
  end.
Proof.
  unfold get_feedback_summary.
  assert (Hr : match h with [] => [] | _ => py_slice_from (- limit) h end = window h limit).
  { destruct h; [now rewrite window_nil | apply py_slice_window]. }
  rewrite Hr. destruct (window h limit) as [| f fs]; cbn.
  - split; reflexivity.
  - repeat split; congruence.
Qed.

(** [get_feedback_summary(limit)] keeps the last [limit] entries for a
    positive [limit], the whole history for [limit = 0], and drops the first
    [-limit] entries for a negative one; it answers with the message exactly
    when that selection is empty, and then [total_queries_analyzed] is the
    number of entries kept. *)
Theorem get_feedback_summary_window (feedback_history : list feedback) (limit : Z) :
  let recent :=
    if (0 <? limit)%Z
    then skipn (length feedback_history - Z.to_nat limit) feedback_history
    else skipn (Z.to_nat (- limit)) feedback_history in
  match get_feedback_summary feedback_history limit with
  | NoFeedback m => m = "No feedback data available" /\ recent = []
  | FeedbackSummary total _ _ r => r = recent /\ r <> [] /\ total = length r
  end.
Proof. exact (summary_recent_window feedback_history limit). Qed.

(** ** Counting the issues *)

Lemma bump_keys (d : list (string * nat)) (x k : string) :
  In k (map fst (bump d x)) <-> k = x \/ In k (map fst d).
Proof.
  induction d as [| [k' n] d IH]; cbn; [split; intros H; intuition (subst; auto) |].
  destruct (String.eqb_spec x k') as [-> | Hne]; cbn; [| rewrite IH];
    split; intros H; intuition (subst; auto).
Qed.

Lemma bump_nodup (d : list (string * nat)) (x : string) :
  NoDup (map fst d) -> NoDup (map fst (bump d x)).
Proof.
  induction d as [| [k n] d IH]; cbn; intros Hd.
  - constructor; [intros [] | constructor].
  - inversion Hd as [| ? ? Hk Hd']; subst.
    destruct (String.eqb_spec x k) as [-> | Hne]; cbn; constructor; auto.
    rewrite bump_keys. intros [-> | H]; [congruence | contradiction].
Qed.

Lemma bump_in (d : list (string * nat)) (x i : string) (c : nat) :
  NoDup (map fst d) -> In (i, c) (bump d x) ->
  (i <> x /\ In (i, c) d)
  \/ (i = x /\ ((c = 1%nat /\ ~ In x (map fst d)) \/ exists c', In (x, c') d /\ c = S c')).
Proof.
  induction d as [| [k n] d IH]; cbn; intros Hd Hin.
  - destruct Hin as [[= <- <-] | []]. right. auto.
  - inversion Hd as [| ? ? Hk Hd']; subst.
    destruct (String.eqb_spec x k) as [-> | Hne]; cbn in Hin.
    + destruct Hin as [[= <- <-] | Hin].
      * right. split; [reflexivity |]. right. exists n. auto.
      * destruct (String.eqb_spec i k) as [-> | Hik].
        -- exfalso. apply Hk. now apply (in_map fst d (k, c)).
        -- left. auto.
    + destruct Hin as [[= <- <-] | Hin].
      * left. auto.
      * destruct (IH Hd' Hin) as [[Hix Hi] | [-> [[-> Hn] | [c' [Hc' ->]]]]].
        -- left. auto.
        -- right. split; [reflexivity |]. left. split; [reflexivity |]. intros [H | H]; [congruence | contradiction].
        -- right. split; [reflexivity |]. right. exists c'. auto.
Qed.

(** What [issue_counts] holds after counting [acc]. *)
Definition counts_of (acc : list string) (d : list (string * nat)) : Prop :=
  NoDup (map fst d)
  /\ (forall i c, In (i, c) d -> c = count_occ string_dec acc i)
  /\ (forall i, In i (map fst d) <-> In i acc).

Lemma counts_of_bump (acc : list string) (d : list (string * nat)) (x : string) :
  counts_of acc d -> counts_of (acc ++ [x]) (bump d x).
Proof.
  intros [Hnd [Hc Hk]]. split; [| split].
  - now apply bump_nodup.
  - intros i c Hin. rewrite count_occ_app. cbn.
    destruct (bump_in d x i c Hnd Hin) as [[Hix Hi] | [-> [[-> Hn] | [c' [Hc' ->]]]]].
    + rewrite (Hc i c Hi). destruct (string_dec x i); [congruence | lia].
    + destruct (string_dec x x) as [_ | []]; [| reflexivity].
      assert (count_occ string_dec acc x = 0%nat) as ->; [| reflexivity].
      apply count_occ_not_In. now rewrite <- Hk.
    + rewrite (Hc x c' Hc'). destruct (string_dec x x) as [_ | []]; [lia | reflexivity].
  - intros i. rewrite bump_keys, Hk, in_app_iff. cbn. split; intros H; intuition (subst; auto).
Qed.

Lemma count_issues_counts (all : list string) : counts_of all (count_issues all).
Proof.
  unfold count_issues.
  assert (H : forall acc d, counts_of acc d -> counts_of (acc ++ all) (fold_left bump all d)).
  { induction all as [| x xs IH]; intros acc d Hd; cbn.
    - now rewrite app_nil_r.
    - replace (acc ++ x :: xs)%list with ((acc ++ [x]) ++ xs)%list by now rewrite <- app_assoc.
      apply IH. now apply counts_of_bump. }
  apply (H []). split; [constructor | split]; cbn; [intros i c [] | tauto].
Qed.

(** ** The stable descending sort *)

Definition ge_count (a b : string * nat) : Prop := (snd b <= snd a)%nat.

Lemma insert_desc_perm (x : string * nat) (l : list (string * nat)) :
  Permutation (insert_desc x l) (x :: l).
Proof.
  induction l as [| y l IH]; cbn [insert_desc]; [reflexivity |].
  destruct (snd y <? snd x)%nat; [reflexivity |].
  rewrite IH. apply perm_swap.
Qed.

Lemma insert_desc_sorted (x : string * nat) (l : list (string * nat)) :
  StronglySorted ge_count l -> StronglySorted ge_count (insert_desc x l).
Proof.
  induction l as [| y l IH]; cbn [insert_desc]; intros Hs.
  - repeat constructor.
  - inversion Hs as [| ? ? Hl Hy]; subst.
    destruct (Nat.ltb_spec (snd y) (snd x)) as [Hlt | Hge].
    + constructor; [exact Hs |]. constructor; [unfold ge_count; lia |].
      eapply Forall_impl; [| exact Hy]. unfold ge_count. intros a Ha. lia.
    + constructor; [now apply IH |].
      eapply Permutation_Forall; [symmetry; apply insert_desc_perm |].
      constructor; [unfold ge_count; lia | exact Hy].
Qed.

Lemma sort_desc_spec (l : list (string * nat)) :
  Permutation (sort_desc l) l /\ StronglySorted ge_count (sort_desc l).
Proof.
  unfold sort_desc.
  assert (H : forall acc, StronglySorted ge_count acc ->
            Permutation (fold_left (fun acc x => insert_desc x acc) l acc) (acc ++ l)
            /\ StronglySorted ge_count (fold_left (fun acc x => insert_desc x acc) l acc)).
  { induction l as [| x xs IH]; intros acc Hacc; cbn.
    - rewrite app_nil_r. split; [reflexivity | exact Hacc].
    - destruct (IH (insert_desc x acc) (insert_desc_sorted x acc Hacc)) as [Hp Hs].
      split; [| exact Hs]. rewrite Hp, insert_desc_perm.
      cbn. apply Permutation_middle. }
  apply (H []). constructor.
Qed.

Lemma StronglySorted_app_inv {A} (R : A -> A -> Prop) (l1 l2 : list A) :
  StronglySorted R (l1 ++ l2) ->
  StronglySorted R l1 /\ (forall a b, In a l1 -> In b l2 -> R a b).
Proof.
  induction l1 as [| x l1 IH]; cbn; intros Hs.
  - split; [constructor | intros a b []].
  - inversion Hs as [| ? ? Hs' Hx]; subst. destruct (IH Hs') as [H1 H2].
    rewrite Forall_forall in Hx. split.
    + constructor; [exact H1 |]. apply Forall_forall. intros y Hy. apply Hx, in_or_app. auto.
    + intros a b [<- | Ha] Hb; [apply Hx, in_or_app; auto | auto].
Qed.

Lemma NoDup_firstn {A} (n : nat) (l : list A) : NoDup l -> NoDup (firstn n l).
Proof.
  intros Hl. rewrite <- (firstn_skipn n l) in Hl. now apply NoDup_app_remove_r in Hl.
Qed.

(** The [common_issues] of [get_feedback_summary] hold at most five distinct
    issues, each with its number of occurrences (positive) in the selected
    feedback, sorted by decreasing count, and no issue left out occurs more
    often than one kept. *)
Theorem summary_common_issues (h : list feedback) (limit : Z) :
  match get_feedback_summary h limit with
  | NoFeedback _ => True
  | FeedbackSummary _ _ common_issues recent =>
      let all_issues := flat_map issues_of recent in
      (length common_issues <= 5)%nat
      /\ NoDup (map fst common_issues)
      /\ (forall i c, In (i, c) common_issues ->
            c = count_occ string_dec all_issues i /\ (0 < c)%nat)
      /\ Sorted ge_count common_issues
      /\ (forall i, In i all_issues -> ~ In i (map fst common_issues) ->
            forall p, In p common_issues -> (count_occ string_dec all_issues i <= snd p)%nat)
  end.
Proof.
  unfold get_feedback_summary.
  destruct (match h with [] => [] | _ => py_slice_from (- limit) h end) as [| f fs];
    [exact I |].
  cbv zeta.
  set (all := flat_map issues_of (f :: fs)).
  destruct (count_issues_counts all) as [Hnd [Hc Hk]].
  destruct (sort_desc_spec (count_issues all)) as [Hp Hs].
  set (s := sort_desc (count_issues all)) in *.
  assert (Hin : forall p, In p (firstn 5 s) -> In p (count_issues all)).
  { intros p Hp'. apply (Permutation_in _ Hp). rewrite <- (firstn_skipn 5 s).
    apply in_or_app. now left. }
  rewrite <- (firstn_skipn 5 s) in Hs. apply StronglySorted_app_inv in Hs as [Hs1 Hs12].
  split; [| split; [| split; [| split]]].
  - apply firstn_le_length.
  - rewrite <- firstn_map. apply NoDup_firstn. apply (Permutation_NoDup (Permutation_map fst (Permutation_sym Hp))).
    exact Hnd.
  - intros i c Hic. specialize (Hin _ Hic). rewrite (Hc i c Hin). split; [reflexivity |].
    apply (in_map fst) in Hin. cbn in Hin. apply Hk in Hin.
    destruct (count_occ string_dec all i) eqn:E; [| lia].
    exfalso. now apply (count_occ_not_In string_dec all i) in E.
  - now apply StronglySorted_Sorted.
  - intros i Hi Hni p Hp'.
    apply Hk in Hi. apply in_map_iff in Hi as [[i' c] [Hi' Hic]]. cbn in Hi'. subst i'.
    assert (Hsk : In (i, c) (skipn 5 s)).
    { assert (Hs' : In (i, c) (firstn 5 s ++ skipn 5 s))
        by (rewrite firstn_skipn; apply (Permutation_in _ (Permutation_sym Hp)); exact Hic).
      apply in_app_or in Hs' as [H | H]; [| exact H].
      exfalso. apply Hni. now apply (in_map fst) in H. }
    rewrite <- (Hc i c Hic). exact (Hs12 p (i, c) Hp' Hsk).
Qed.

End SummaryWindow.

Section AnalyzeExtras.
Import Feedback FeedbackStore.

(** Without connection info (None or the empty dict), [analyze_query_quality]
    reports no execution result and no correctness issue, keeps the syntax
    stage's score, and does not depend on the database driver at all. *)
Theorem analyze_without_connection (PY : bool) (connect : string -> connection)
  (execute : string -> string -> string + (nat * list string * Q))
  (hist : list feedback) (sql_query : pyval) (schema nl : string) (ci : option dict)
  (Hci : dict_truthy ci = false) :
  let fb := fst (analyze_query_quality PY connect execute hist sql_query schema nl ci) in
  execution_results fb = None
  /\ correctness_issues fb = []
  /\ syntax_score (fb_analysis fb) = st_score (_analyze_syntax sql_query)
  /\ (forall PY' connect' execute',
        analyze_query_quality PY' connect' execute' hist sql_query schema nl ci
        = analyze_query_quality PY connect execute hist sql_query schema nl ci).
Proof.
  cbv zeta. unfold analyze_query_quality. rewrite Hci. cbn.
  repeat split; reflexivity.
Qed.

Lemma analyze_without_connection_witness :
  let ci := Some [] in
  dict_truthy ci = false
  /\ execution_results
       (fst (analyze_query_quality true (fun _ => Opened None None) (fun _ _ => inl "timeout") []
               (PyStr "SELECT name FROM users") "" "list users" ci)) = None.
Proof.
  cbv zeta. split; [reflexivity |].
  apply (analyze_without_connection true (fun _ => Opened None None) (fun _ _ => inl "timeout") []
           (PyStr "SELECT name FROM users") "" "list users" (Some []) eq_refl).
Defined.

(** After [analyze_query_quality], a summary with a positive limit covers
    min(limit, history length) entries and ends with the feedback just
    produced. *)
Theorem analyze_then_summary (PY : bool) (connect : string -> connection)
  (execute : string -> string -> string + (nat * list string * Q))
  (hist : list feedback) (sql_query : pyval) (schema nl : string) (ci : option dict)
  (limit : Z) (Hl : (0 < limit)%Z) :
  let '(fb, hist') := analyze_query_quality PY connect execute hist sql_query schema nl ci in
  match get_feedback_summary hist' limit with
  | NoFeedback _ => False
  | FeedbackSummary total _ _ recent =>
      total = Nat.min (Z.to_nat limit) (S (length hist))
      /\ exists older, recent = (older ++ [fb])%list
  end.
Proof.
  assert (Hh : snd (analyze_query_quality PY connect execute hist sql_query schema nl ci)
               = (hist ++ [fst (analyze_query_quality PY connect execute hist sql_query schema nl ci)])%list)
    by (unfold analyze_query_quality; cbv zeta;
        destruct (dict_truthy ci); [destruct exec_success |]; reflexivity).
  destruct (analyze_query_quality PY connect execute hist sql_query schema nl ci) as [fb hist'].
  cbn in Hh. subst hist'.
  pose proof (summary_recent_window (hist ++ [fb]) limit) as Hw.
  unfold window in Hw.
  replace (0 <? limit)%Z with true in Hw by (symmetry; now apply Z.ltb_lt).
  rewrite length_app in Hw. cbn [length] in Hw.
  assert (Hk : (length hist + 1 - Z.to_nat limit <= length hist)%nat) by lia.
  rewrite skipn_app in Hw.
  replace (length hist + 1 - Z.to_nat limit - length hist)%nat with 0%nat in Hw by lia.
  cbn [skipn] in Hw.
  destruct (get_feedback_summary (hist ++ [fb]) limit) as [m | total avg ci' recent].
  - destruct Hw as [_ Hw]. now destruct (skipn _ hist).
  - destruct Hw as [-> [_ ->]]. split.
    + rewrite length_app, length_skipn. cbn. lia.
    + eexists. reflexivity.
Qed.

Lemma analyze_then_summary_witness :
  (0 < 10)%Z /\
  let '(fb, hist') := analyze_query_quality false (fun _ => Opened None None) (fun _ _ => inl "") []
                        (PyStr "SELECT 1") "" "" None in
  match get_feedback_summary hist' 10 with
  | NoFeedback _ => False
  | FeedbackSummary total _ _ recent =>
      total = Nat.min (Z.to_nat 10) 1 /\ exists older, recent = (older ++ [fb])%list
  end.
Proof.
  split; [lia |].
  exact (analyze_then_summary false (fun _ => Opened None None) (fun _ _ => inl "") [] (PyStr "SELECT 1")
           "" "" None 10 ltac:(lia)).
Defined.

End AnalyzeExtras.

Section ExecutionExtras.
Import Feedback.

Lemma replace_first_absent (old new s : string) :
  Py.contains s old = false -> Py.replace_first old new s = s.
Proof.
  induction s as [| c s IH]; cbn [Py.contains Py.replace_first]; intros H.
  - apply orb_false_iff in H as [H _]. now rewrite H.
  - apply orb_false_iff in H as [Hp Hc]. rewrite Hp. now rewrite IH.
Qed.

(** [_test_query_execution] adds its TOP 100 cap by replacing the first
    upper-case SELECT: a query with no upper-case SELECT, such as one written
    in lower case, is sent to the database unchanged. *)
Theorem lowercase_select_runs_uncapped (PY : bool) (connect : string -> connection)
  (execute : string -> string -> string + (nat * list string * Q))
  (q : string) (ci : option dict) :
  Py.contains q "SELECT" = false ->
  forall stmt, In stmt (snd (_test_query_execution PY connect execute (PyStr q) ci)) -> stmt = q.
Proof.
  intros Hq stmt Hin. unfold _test_query_execution in Hin. cbv zeta in Hin.
  destruct ci as [d |]; [| destruct Hin].
  destruct (negb PY || negb (dict_truthy (Some d))); [destruct Hin |].
  destruct (connect (build_conn_str d)) as [e | cm rb]; [destruct Hin |].
  destruct (negb (Py.startswith (Py.upper (Py.strip q)) "SELECT")); [destruct cm; destruct Hin |].
  rewrite replace_first_absent in Hin by exact Hq.
  destruct (negb (Py.contains (Py.upper q) "LIMIT") && negb (Py.contains (Py.upper q) "TOP"));
    destruct (execute (build_conn_str d) q) as [e | [[rows cols] t]];
    [destruct rb | destruct cm | destruct rb | destruct cm];
    cbn in Hin; destruct Hin as [-> | []]; reflexivity.
Qed.

Lemma lowercase_select_runs_uncapped_witness :
  let q := "select name from users" in
  let run := _test_query_execution true (fun _ => Opened None None) (fun _ _ => inr (3%nat, ["name"], 0%Q))
               (PyStr q) (Some [("host", "db")]) in
  Py.contains q "SELECT" = false /\ In q (snd run)
  /\ (forall stmt, In stmt (snd run) -> stmt = q).
Proof.
  cbv zeta.
  assert (H : Py.contains "select name from users" "SELECT" = false) by (vm_compute; reflexivity).
  split; [exact H | split; [vm_compute; left; reflexivity |]].
  exact (lowercase_select_runs_uncapped true (fun _ => Opened None None)
           (fun _ _ => inr (3%nat, ["name"], 0%Q)) "select name from users"
           (Some [("host", "db")]) H).
Defined.

(** With [auth_type] set to windows, the connection string depends only on
    the auth type, host, port and database entries: a username or password
    in the connection info is never sent. *)
Theorem windows_auth_conn_str_ignores_credentials (ci ci' : dict) :
  dict_get ci "auth_type" "sql" = "windows" ->
  (forall k d, In k ["auth_type"; "host"; "port"; "database"] ->
     dict_get ci k d = dict_get ci' k d) ->
  build_conn_str ci = build_conn_str ci'.
Proof.
  intros Hw Hagree. unfold build_conn_str.
  rewrite <- !Hagree by (cbn; tauto). rewrite Hw. reflexivity.
Qed.

Lemma windows_auth_conn_str_ignores_credentials_witness :
  let ci := [("auth_type", "windows"); ("host", "db"); ("username", "sa"); ("password", "secret")] in
  let ci' := [("auth_type", "windows"); ("host", "db")] in
  build_conn_str ci = build_conn_str ci'.
Proof.
  cbv zeta. apply windows_auth_conn_str_ignores_credentials; [reflexivity |].
  intros k d Hk. cbn in Hk.
  destruct Hk as [<- | [<- | [<- | [<- | []]]]]; reflexivity.
Defined.

End ExecutionExtras.

Section SubmitExtras.
Import Feedback FeedbackStore.

(** [submit_user_feedback] finds no entry for any query id other than null,
    since no stored feedback has an id: it returns False and changes
    nothing.  A null id matches the first entry, which gets the rating. *)
Theorem submit_user_feedback_by_id (feedback_history : list entry) (query_id : json_value)
  (user_rating : Z) (user_comments : string) :
  (query_id <> JNull ->
     submit_user_feedback feedback_history query_id user_rating user_comments
     = (false, feedback_history))
  /\ (query_id = JNull ->
     submit_user_feedback feedback_history query_id user_rating user_comments
     = match feedback_history with
       | [] => (false, [])
       | e :: rest =>
           (true, {| entry_feedback := entry_feedback e;
                     user_feedback := Some (user_rating, user_comments) |} :: rest)
       end).
Proof.
  split.
  - intros Hq. induction feedback_history as [| e rest IH]; [reflexivity |].
    cbn [submit_user_feedback]. unfold id_matches, entry_get_id.
    destruct query_id; [contradiction | | |]; cbn [none_eq]; rewrite IH; reflexivity.
  - intros ->. destruct feedback_history; reflexivity.
Qed.

Definition sample_entry : entry :=
  {| entry_feedback :=
       {| fb_query := PyStr "SELECT 1"; fb_natural_language := "";
          fb_analysis := {| syntax_score := 100; semantic_score := 70;
                            performance_score := 80; security_score := 100;
                            overall_score := 0 |};
          syntax_issues := []; semantic_issues := []; performance_suggestions := [];
          security_warnings := []; correctness_issues := []; execution_results := None;
          recommendations := [] |};
     user_feedback := None |}.

Lemma submit_user_feedback_by_id_witness :
  JInt 1 <> JNull
  /\ submit_user_feedback [sample_entry] (JInt 1) 5 "great" = (false, [sample_entry]).
Proof.
  split; [discriminate |].
  apply (proj1 (submit_user_feedback_by_id [sample_entry] (JInt 1) 5 "great")). discriminate.
Defined.

End SubmitExtras.
